(** * The Freedom Ad Network bidder adapter (modules/fanAdapter.js)

    A shallow embedding of the adapter: the JavaScript values it handles,
    the built-in operations it relies on, its effects (configuration store,
    log, network calls, pixels) as a state-and-exception monad, and the
    adapter's functions written statement by statement over them. *)

From Stdlib Require Import ZArith Ascii String.
From stdpp Require Import gmap strings list fin_maps pretty.

Set Warnings "-register-all".
Open Scope string_scope.
Open Scope Z_scope.
Open Scope list_scope.

(** ** JavaScript values

    The data the adapter sees is JSON data (bid requests, server responses,
    configuration) plus [undefined]. Numbers are the integers: no operation
    of the adapter computes with a number, they are tested and copied. An
    integer of 2^53 or more stands for the double nearest to it. *)
Module JS.

Inductive value :=
  | VUndef
  | VNull
  | VBool (b : bool)
  | VNum (n : Z)
  | VStr (s : string)
  | VArr (l : list value)
  | VObj (o : gmap string value).

(** The exceptions the adapter's code can raise. *)
Inductive error :=
  | TypeError (msg : string).

(** How an evaluation ends: with a value, or with a thrown exception. The
    third case marks the one operation left outside the embedding: the
    conversion to a number of a non-empty string or an array that stands as
    the [length] of a tracker list. *)
Inductive outcome (A : Type) :=
  | Ok (a : A)
  | Throw (e : error)
  | Unsupported.
Arguments Ok {A} a.
Arguments Throw {A} e.
Arguments Unsupported {A}.

(** ToBoolean: [if (v)], [!v], [v || w], [v ? a : b]. *)
Definition truthy (v : value) : bool :=
  match v with
  | VUndef | VNull => false
  | VBool b => b
  | VNum n => negb (n =? 0)
  | VStr s => negb (String.eqb s "")
  | VArr _ | VObj _ => true
  end.

(** [v === undefined || v === null]: member access on such a value throws. *)
Definition nullish (v : value) : bool :=
  match v with
  | VUndef | VNull => true
  | _ => false
  end.

(** [v === undefined]. *)
Definition is_undefined (v : value) : bool :=
  match v with
  | VUndef => true
  | _ => false
  end.

(** [typeof v === 'number']. *)
Definition is_number (v : value) : bool :=
  match v with
  | VNum _ => true
  | _ => false
  end.

(** [a || b]. *)
Definition js_or (a b : value) : value :=
  if truthy a then a else b.

(** [v.k] for a value that is not nullish and an identifier [k] of the
    source: the own data property, [undefined] when there is none. Arrays and
    strings carry [length]; the inherited built-ins are methods, none of which
    is named by a member access of the adapter. *)
Definition member (v : value) (k : string) : value :=
  match v with
  | VObj o => default VUndef (o !! k)
  | VArr l => if String.eqb k "length" then VNum (Z.of_nat (length l)) else VUndef
  | VStr s => if String.eqb k "length" then VNum (Z.of_nat (String.length s)) else VUndef
  | _ => VUndef
  end.

(** The [i]-th character of a string, as a string. *)
Fixpoint char_at (s : string) (i : nat) : option string :=
  match s, i with
  | EmptyString, _ => None
  | String c _, O => Some (String c EmptyString)
  | String _ r, S j => char_at r j
  end.

(** [v[i]] for a value that is not nullish and an index [i]. *)
Definition element (v : value) (i : nat) : value :=
  match v with
  | VArr l => default VUndef (l !! i)
  | VStr s => default VUndef (VStr <$> char_at s i)
  | VObj o => default VUndef (o !! pretty (Z.of_nat i))
  | _ => VUndef
  end.

(** JSON documents: what [JSON.stringify] writes and [JSON.parse] reads. The
    text itself (spacing, key order, escapes) is not modelled. *)
Inductive json :=
  | JNull
  | JBool (b : bool)
  | JNum (n : Z)
  | JStr (s : string)
  | JArr (l : list json)
  | JObj (o : gmap string json).

(** [JSON.stringify]: [undefined] has no serialization; as a property value
    it is left out and as an array element it is written [null]. *)
Fixpoint JSON_stringify (v : value) : option json :=
  match v with
  | VUndef => None
  | VNull => Some JNull
  | VBool b => Some (JBool b)
  | VNum n => Some (JNum n)
  | VStr s => Some (JStr s)
  | VArr l => Some (JArr (map (fun x => default JNull (JSON_stringify x)) l))
  | VObj o => Some (JObj (omap JSON_stringify o))
  end.

(** [JSON.parse]. *)
Fixpoint JSON_parse (j : json) : value :=
  match j with
  | JNull => VNull
  | JBool b => VBool b
  | JNum n => VNum n
  | JStr s => VStr s
  | JArr l => VArr (map JSON_parse l)
  | JObj o => VObj (JSON_parse <$> o)
  end.

(** What a property holding [v] reads as after [JSON.parse(JSON.stringify(_))]. *)
Definition reparsed (v : value) : value :=
  match JSON_stringify v with
  | Some j => JSON_parse j
  | None => VUndef
  end.

(** Values that JSON carries unchanged. *)
Definition json_exact (v : value) : Prop := reparsed v = v.

(** Joins strings with commas, as [Array.prototype.join] does. *)
Fixpoint join_comma (l : list string) : string :=
  match l with
  | [] => ""
  | [s] => s
  | s :: r => s +:+ "," +:+ join_comma r
  end.

(** The double nearest to the integer [n >= 0], ties going to the even
    mantissa: the number that a numeral of that value denotes. *)
Definition nearest_double (n : Z) : Z :=
  if n <? 2 ^ 53 then n
  else
    let e := Z.log2 n - 52 in
    let q := n / 2 ^ e in
    let r := n mod 2 ^ e in
    let half := 2 ^ (e - 1) in
    let q' := if r <? half then q
              else if half <? r then q + 1
              else if Z.even q then q else q + 1 in
    q' * 2 ^ e.

(** Whether the decimal [c] denotes the double [x >= 2^53]: it lies within
    half a step of [x], the ends counting when the mantissa of [x] is
    even. *)
Definition reads_back (x c : Z) : bool :=
  let e := Z.log2 x - 52 in
  let ulp := 2 ^ e in
  let m := x / ulp in
  let hi2 := 2 * x + ulp in
  let lo2 := if m =? 2 ^ 52 then 2 * x - ulp / 2 else 2 * x - ulp in
  if Z.even m then (lo2 <=? 2 * c) && (2 * c <=? hi2)
  else (lo2 <? 2 * c) && (2 * c <? hi2).

Definition decimal_length (n : Z) : Z := Z.of_nat (String.length (pretty n)).

(** The decimal of [k] significant digits that denotes [x], if there is
    one: the closer of the two around [x], the even one on a tie. *)
Definition with_digits (x k : Z) : option Z :=
  let p := 10 ^ (decimal_length x - k) in
  let a := x / p * p in
  let b := a + p in
  match reads_back x a, reads_back x b with
  | true, true =>
      if x - a <? b - x then Some a
      else if b - x <? x - a then Some b
      else if Z.even (a / p) then Some a else Some b
  | true, false => Some a
  | false, true => Some b
  | false, false => None
  end.

(** The decimal with the fewest significant digits that denotes the double
    [x >= 2^53], searched from [k] digits on; 17 digits always do. *)
Fixpoint shortest_decimal (fuel : nat) (k x : Z) : Z :=
  match fuel with
  | O => x
  | S f =>
      if decimal_length x <=? k then x
      else match with_digits x k with
           | Some c => c
           | None => shortest_decimal f (k + 1) x
           end
  end.

(** A numeral without its trailing zeros. *)
Fixpoint strip_zeros (s : string) : string :=
  match s with
  | EmptyString => EmptyString
  | String c r =>
      match strip_zeros r with
      | EmptyString => if Ascii.eqb c "0" then EmptyString else String c EmptyString
      | r' => String c r'
      end
  end.

(** The digits of [c] as Number::toString lays them out: in full up to 21
    digits, with an exponent beyond. *)
Definition layout (c : Z) : string :=
  let digits := pretty c in
  let n := decimal_length c in
  if n <=? 21 then digits
  else
    match strip_zeros digits with
    | EmptyString => digits
    | String d EmptyString => String d EmptyString +:+ "e+" +:+ pretty (n - 1)
    | String d r => String d EmptyString +:+ "." +:+ r +:+ "e+" +:+ pretty (n - 1)
    end.

(** Number::toString of the number that the integer [n] stands for: below
    2^53 its decimal numeral; from there on the shortest decimal that
    denotes the same double, as in 18446744073709552000 for 2^64 and
    1e+21 for 10^21. *)
Definition Number_toString (n : Z) : string :=
  if Z.abs n <? 2 ^ 53 then pretty n
  else
    let x := nearest_double (Z.abs n) in
    (if n <? 0 then "-" else "") +:+
    (if 2 ^ 1024 <=? x then "Infinity" else layout (shortest_decimal 17 1 x)).

(** ToString, as applied by ['...' + v]. *)
Fixpoint ToString (v : value) : string :=
  match v with
  | VUndef => "undefined"
  | VNull => "null"
  | VBool b => if b then "true" else "false"
  | VNum n => Number_toString n
  | VStr s => s
  | VArr l =>
      join_comma (map (fun x => if nullish x then "" else ToString x) l)
  | VObj _ => "[object Object]"
  end.

(** The code of a character. *)
Definition code (c : ascii) : Z := Z.of_N (N_of_ascii c).

(** The value of a character as a digit, in bases up to 16. *)
Definition digit_value (c : ascii) : option Z :=
  let n := code c in
  if (48 <=? n) && (n <=? 57) then Some (n - 48)
  else if (97 <=? n) && (n <=? 102) then Some (n - 87)
  else if (65 <=? n) && (n <=? 70) then Some (n - 55)
  else None.

Definition is_digit (base : Z) (c : ascii) : bool :=
  match digit_value c with
  | Some d => d <? base
  | None => false
  end.

(** The decimal digits a string starts with, and what follows them. *)
Fixpoint span_digits (s : string) : string * string :=
  match s with
  | EmptyString => (EmptyString, EmptyString)
  | String c r =>
      if is_digit 10 c then
        let '(d, rest) := span_digits r in (String c d, rest)
      else (EmptyString, s)
  end.

(** The value of a numeral in the given base. *)
Fixpoint numeral_value (base acc : Z) (s : string) : Z :=
  match s with
  | EmptyString => acc
  | String c r => numeral_value base (base * acc + default 0 (digit_value c)) r
  end.

Fixpoint all_digits (base : Z) (s : string) : bool :=
  match s with
  | EmptyString => true
  | String c r => is_digit base c && all_digits base r
  end.

(** The UTF-8 encodings of the characters that StringToNumber trims:
    WhiteSpace and LineTerminator. *)
Definition white_space : list (list Z) :=
  [ [9]; [10]; [11]; [12]; [13]; [32]; [194; 160]; [225; 154; 128];
    [226; 128; 128]; [226; 128; 129]; [226; 128; 130]; [226; 128; 131];
    [226; 128; 132]; [226; 128; 133]; [226; 128; 134]; [226; 128; 135];
    [226; 128; 136]; [226; 128; 137]; [226; 128; 138]; [226; 128; 168];
    [226; 128; 169]; [226; 128; 175]; [226; 129; 159]; [227; 128; 128];
    [239; 187; 191] ].

(** What is left of [l] after the prefix [p], if [l] starts with it. *)
Fixpoint after_prefix (p l : list Z) : option (list Z) :=
  match p, l with
  | [], _ => Some l
  | x :: p', y :: l' => if x =? y then after_prefix p' l' else None
  | _ :: _, [] => None
  end.

(** Drops the marks that a list of bytes starts with. *)
Fixpoint trim_start (fuel : nat) (marks : list (list Z)) (l : list Z) : list Z :=
  match fuel with
  | O => l
  | S f =>
      match omap (fun p => after_prefix p l) marks with
      | rest :: _ => trim_start f marks rest
      | [] => l
      end
  end.

Definition bytes_of (s : string) : list Z := map code (String.list_ascii_of_string s).

Definition string_of (l : list Z) : string :=
  String.string_of_list_ascii (map (fun n => ascii_of_N (Z.to_N n)) l).

(** The string without the white space at its ends. *)
Definition trim (s : string) : string :=
  let l := trim_start (String.length s) white_space (bytes_of s) in
  let r := trim_start (String.length s) (map (@rev Z) white_space) (rev l) in
  string_of (rev r).

(** Whether the decimal [d * 10^e], with [0 < d < 10^digits], is rounded to
    zero: it does not exceed 2^-1075, half the smallest double. *)
Definition underflows (digits d e : Z) : bool :=
  if 0 <=? e then false
  else if digits + 400 <? - e then true
  else d * 2 ^ 1075 <=? 10 ^ (- e).

(** A numeral without its sign. *)
Definition unsigned (s : string) : string :=
  match s with
  | String c r => if Ascii.eqb c "+" || Ascii.eqb c "-" then r else s
  | EmptyString => s
  end.

Definition negative (s : string) : bool :=
  match s with
  | String c _ => Ascii.eqb c "-"
  | EmptyString => false
  end.

(** The exponent part of a decimal literal, empty or [e] with a signed
    integer; [None] when it is neither. *)
Definition exponent_part (s : string) : option Z :=
  match s with
  | EmptyString => Some 0
  | String c r =>
      if Ascii.eqb c "e" || Ascii.eqb c "E" then
        let '(digits, rest) := span_digits (unsigned r) in
        if String.eqb digits "" || negb (String.eqb rest "") then None
        else Some ((if negative r then -1 else 1) * numeral_value 10 0 digits)
      else None
  end.

(** StrDecimalLiteral: whether the literal denotes zero; [None] when the
    string is no such literal. *)
Definition decimal_is_zero (t : string) : option bool :=
  let u := unsigned t in
  if String.eqb u "Infinity" then Some false
  else
    let '(int, r1) := span_digits u in
    let '(frac, r2) :=
      match r1 with
      | String c r => if Ascii.eqb c "." then span_digits r else (EmptyString, r1)
      | EmptyString => (EmptyString, r1)
      end in
    if String.eqb int "" && String.eqb frac "" then None
    else
      match exponent_part r2 with
      | None => None
      | Some e =>
          let d := numeral_value 10 0 (int +:+ frac) in
          Some ((d =? 0)
                || underflows (Z.of_nat (String.length (int +:+ frac))) d
                              (e - Z.of_nat (String.length frac)))
      end.

(** NonDecimalIntegerLiteral: 0x, 0o or 0b and digits of that base. *)
Definition radix_is_zero (t : string) : option bool :=
  match t with
  | String z (String c r) =>
      let base :=
        if Ascii.eqb c "x" || Ascii.eqb c "X" then Some 16
        else if Ascii.eqb c "o" || Ascii.eqb c "O" then Some 8
        else if Ascii.eqb c "b" || Ascii.eqb c "B" then Some 2
        else None in
      match base with
      | Some b =>
          if Ascii.eqb z "0" && negb (String.eqb r "") && all_digits b r
          then Some (numeral_value b 0 r =? 0)
          else None
      | None => None
      end
  | _ => None
  end.

(** Whether StringToNumber of the string is zero: the string is empty but
    for white space, or a numeric literal of value zero, or one so small
    that it is rounded to zero. *)
Definition denotes_zero (s : string) : bool :=
  let t := trim s in
  if String.eqb t "" then true
  else
    match radix_is_zero t with
    | Some z => z
    | None => default false (decimal_is_zero t)
    end.

(** The result of ToNumber. *)
Inductive number :=
  | Fin (n : Z)
  | NaN.

(** ToNumber, as applied by [v > 0] and [i < v] to the [length] of the
    tracker list, and by [v == 0] to what is no string and no array. *)
Definition ToNumber (v : value) : outcome number :=
  match v with
  | VUndef => Ok NaN
  | VNull => Ok (Fin 0)
  | VBool b => Ok (Fin (if b then 1 else 0))
  | VNum n => Ok (Fin n)
  | VStr s => if String.eqb s "" then Ok (Fin 0) else Unsupported
  | VArr _ => Unsupported
  | VObj _ => Ok NaN
  end.

(** [v == 0]: [undefined] and [null] equal only each other; every other
    value is compared through ToNumber, an array through the string it is
    joined to. *)
Definition loose_eq_zero (v : value) : outcome bool :=
  match v with
  | VUndef | VNull => Ok false
  | VStr s => Ok (denotes_zero s)
  | VArr _ => Ok (denotes_zero (ToString v))
  | _ =>
      match ToNumber v with
      | Ok (Fin n) => Ok (n =? 0)
      | Ok NaN => Ok false
      | Throw e => Throw e
      | Unsupported => Unsupported
      end
  end.

(** [a < b] on the results of ToNumber: false as soon as one is NaN. *)
Definition number_lt (a b : number) : bool :=
  match a, b with
  | Fin x, Fin y => x <? y
  | _, _ => false
  end.

End JS.
Export JS.

(** ** MD5 (crypto-js/md5.js)

    The digest of RFC 1321 on 32-bit words, each a [Z] below [2^32] with the
    wrap-around written out. The input string stands for the UTF-8 bytes
    crypto-js hashes; [toString()] renders the digest in lowercase
    hexadecimal. *)
Module MD5.

Definition mask32 : Z := 2 ^ 32 - 1.

Definition add32 (a b : Z) : Z := (a + b) mod 2 ^ 32.

Definition not32 (a : Z) : Z := Z.lxor a mask32.

(** Rotation of a 32-bit word to the left. *)
Definition rotl32 (x n : Z) : Z :=
  Z.lor (Z.land (Z.shiftl x n) mask32) (Z.shiftr x (32 - n)).

(** T[i] = floor(2^32 * abs(sin(i + 1))). *)
Definition T : list Z :=
  [ 0xd76aa478; 0xe8c7b756; 0x242070db; 0xc1bdceee;
    0xf57c0faf; 0x4787c62a; 0xa8304613; 0xfd469501;
    0x698098d8; 0x8b44f7af; 0xffff5bb1; 0x895cd7be;
    0x6b901122; 0xfd987193; 0xa679438e; 0x49b40821;
    0xf61e2562; 0xc040b340; 0x265e5a51; 0xe9b6c7aa;
    0xd62f105d; 0x02441453; 0xd8a1e681; 0xe7d3fbc8;
    0x21e1cde6; 0xc33707d6; 0xf4d50d87; 0x455a14ed;
    0xa9e3e905; 0xfcefa3f8; 0x676f02d9; 0x8d2a4c8a;
    0xfffa3942; 0x8771f681; 0x6d9d6122; 0xfde5380c;
    0xa4beea44; 0x4bdecfa9; 0xf6bb4b60; 0xbebfbc70;
    0x289b7ec6; 0xeaa127fa; 0xd4ef3085; 0x04881d05;
    0xd9d4d039; 0xe6db99e5; 0x1fa27cf8; 0xc4ac5665;
    0xf4292244; 0x432aff97; 0xab9423a7; 0xfc93a039;
    0x655b59c3; 0x8f0ccc92; 0xffeff47d; 0x85845dd1;
    0x6fa87e4f; 0xfe2ce6e0; 0xa3014314; 0x4e0811a1;
    0xf7537e82; 0xbd3af235; 0x2ad7d2bb; 0xeb86d391 ].

(** The per-step rotation amounts. *)
Definition shifts : list Z :=
  [ 7; 12; 17; 22; 7; 12; 17; 22; 7; 12; 17; 22; 7; 12; 17; 22;
    5; 9; 14; 20; 5; 9; 14; 20; 5; 9; 14; 20; 5; 9; 14; 20;
    4; 11; 16; 23; 4; 11; 16; 23; 4; 11; 16; 23; 4; 11; 16; 23;
    6; 10; 15; 21; 6; 10; 15; 21; 6; 10; 15; 21; 6; 10; 15; 21 ].

(** The four chaining words. *)
Record words := Words { wa : Z; wb : Z; wc : Z; wd : Z }.

Definition init : words :=
  Words 0x67452301 0xefcdab89 0x98badcfe 0x10325476.

(** The round function (FF, GG, HH, II) and the message word of step [i]. *)
Definition round_fun (i : nat) (b c d : Z) : Z :=
  if (i <? 16)%nat then Z.lor (Z.land b c) (Z.land (not32 b) d)
  else if (i <? 32)%nat then Z.lor (Z.land b d) (Z.land c (not32 d))
  else if (i <? 48)%nat then Z.lxor b (Z.lxor c d)
  else Z.lxor c (Z.lor b (not32 d)).

Definition word_index (i : nat) : nat :=
  if (i <? 16)%nat then i
  else if (i <? 32)%nat then (5 * i + 1) mod 16
  else if (i <? 48)%nat then (3 * i + 5) mod 16
  else (7 * i) mod 16.

(** One of the 64 steps on the block [M] of 16 words. *)
Definition step (M : list Z) (s : words) (i : nat) : words :=
  let f := round_fun i (wb s) (wc s) (wd s) in
  let x := add32 (add32 (add32 (wa s) f) (default 0 (T !! i)))
                 (default 0 (M !! word_index i)) in
  Words (wd s) (add32 (wb s) (rotl32 x (default 0 (shifts !! i)))) (wb s) (wc s).

(** The compression of one block into the chaining words. *)
Definition process_block (h : words) (M : list Z) : words :=
  let s := foldl (step M) h (seq 0 64) in
  Words (add32 (wa h) (wa s)) (add32 (wb h) (wb s))
        (add32 (wc h) (wc s)) (add32 (wd h) (wd s)).

(** Little-endian bytes of a word, and back. *)
Definition word_bytes (w : Z) : list Z :=
  [ w mod 256; (w / 2 ^ 8) mod 256; (w / 2 ^ 16) mod 256; (w / 2 ^ 24) mod 256 ].

Definition bytes_word (b : list Z) : Z :=
  default 0 (b !! 0%nat) + 2 ^ 8 * default 0 (b !! 1%nat)
  + 2 ^ 16 * default 0 (b !! 2%nat) + 2 ^ 24 * default 0 (b !! 3%nat).

(** Padding: a 1 bit, zeros up to 56 modulo 64, the bit length on 64 bits. *)
Definition pad (msg : list Z) : list Z :=
  let n := length msg in
  let zeros := ((64 - (n + 9) mod 64) mod 64)%nat in
  let bits := 8 * Z.of_nat n in
  msg ++ [128] ++ replicate zeros 0
      ++ word_bytes (bits mod 2 ^ 32) ++ word_bytes ((bits / 2 ^ 32) mod 2 ^ 32).

(** Cuts a list into pieces of [n] elements ([fuel] bounds the pieces). *)
Fixpoint chunks {A} (fuel n : nat) (l : list A) : list (list A) :=
  match fuel, l with
  | O, _ | _, [] => []
  | S f, _ => take n l :: chunks f n (drop n l)
  end.

Definition blocks (bytes : list Z) : list (list Z) :=
  map (fun blk => map bytes_word (chunks 16 4 blk))
      (chunks (length bytes) 64 bytes).

Definition string_bytes (s : string) : list Z :=
  map (fun c => Z.of_N (Ascii.N_of_ascii c)) (String.list_ascii_of_string s).

(** The 16 bytes of the digest. *)
Definition digest (s : string) : list Z :=
  let h := foldl process_block init (blocks (pad (string_bytes s))) in
  word_bytes (wa h) ++ word_bytes (wb h) ++ word_bytes (wc h) ++ word_bytes (wd h).

Definition hex_digit (n : Z) : Ascii.ascii :=
  default "0"%char (String.list_ascii_of_string "0123456789abcdef" !! Z.to_nat n).

(** Hex.stringify: two lowercase digits per byte. *)
Fixpoint hex (bytes : list Z) : string :=
  match bytes with
  | [] => ""
  | b :: r => String (hex_digit ((b / 16) mod 16)) (String (hex_digit (b mod 16)) (hex r))
  end.

(** [MD5(s).toString()]. *)
Definition MD5 (s : string) : string := hex (digest s).

End MD5.

(** ** The host and the browser

    What the adapter reads from its surroundings, typed as the browser and
    the host framework type it. *)

(** The browser: [navigator], [window.screen] and the do-not-track signal
    that [utils.getDNT()] reports. *)
Record Env := {
  navigator_languages : option (list string);
  navigator_language : option string;
  navigator_userLanguage : option string;
  navigator_userAgent : string;
  screen_width : Z;
  screen_height : Z;
  getDNT : bool
}.

(** Modelled from the spec: the store behind config.getConfig of
    src/config.js, which is not among the sources, as far as the adapter
    reads it: the [debug] and [coppa] entries and the [device] override,
    which is unset or an object. Reading an entry hands out the stored value
    itself, so the device object the adapter obtains is the store's own. *)
Record config := {
  cfg_debug : value;
  cfg_coppa : value;
  cfg_device : option (gmap string value)
}.

(** Modelled from the spec: the calls into the host that act on the outside
    world, [utils.logWarn], [utils.logError], [ajax] of src/ajax.js and
    [utils.triggerPixel], none of which is among the sources. Each call is
    recorded with its arguments. *)
Inductive event :=
  | LogWarn (args : list value)
  | LogError (args : list value)
  | Ajax (url : string) (data : option json) (method : string)
         (customHeaders : gmap string string)
  | TriggerPixel (url : value).

(** The state the adapter runs in: the configuration store and the trace of
    what it has done so far, oldest first. *)
Record state := {
  cfg : config;
  log : list event
}.

(** Computations of the adapter: they may read and write the state, and end
    with a value or an exception; the state reached is kept in both cases. *)
Definition M (A : Type) : Type := state -> outcome A * state.

Definition ret {A} (a : A) : M A := fun st => (Ok a, st).

Definition bind {A B} (m : M A) (k : A -> M B) : M B :=
  fun st =>
    match m st with
    | (Ok a, st') => k a st'
    | (Throw e, st') => (Throw e, st')
    | (Unsupported, st') => (Unsupported, st')
    end.

Definition throw {A} (e : error) : M A := fun st => (Throw e, st).

Definition lift {A} (o : outcome A) : M A := fun st => (o, st).

Declare Scope js_scope.
Delimit Scope js_scope with js.
Notation "x <- m ;; k" := (bind m (fun x => k))
  (at level 100, m at next level, right associativity) : js_scope.
Notation "m ;;; k" := (bind m (fun _ => k))
  (at level 100, right associativity) : js_scope.
Open Scope js_scope.

(** Appends an event to the trace. *)
Definition emit (e : event) : M unit :=
  fun st => (Ok tt, {| cfg := cfg st; log := log st ++ [e] |}).

(** Reads the configuration store. *)
Definition get_cfg : M config := fun st => (Ok (cfg st), st).

(** Writes through the reference to the device object of the store. *)
Definition set_device (o : gmap string value) : M unit :=
  fun st =>
    (Ok tt, {| cfg := {| cfg_debug := cfg_debug (cfg st);
                         cfg_coppa := cfg_coppa (cfg st);
                         cfg_device := Some o |};
               log := log st |}).

(** [v.k]: throws on [undefined] and [null]. *)
Definition get_prop (v : value) (k : string) : M value :=
  if nullish v then throw (TypeError ("Cannot read properties of " +:+ ToString v))
  else ret (member v k).

(** [l.map(f)] with an effectful callback. *)
Fixpoint mapM {A B} (f : A -> M B) (l : list A) : M (list B) :=
  match l with
  | [] => ret []
  | x :: r => y <- f x ;; ys <- mapM f r ;; ret (y :: ys)
  end.

(** [for (var i = from; i < from + n; i++) body(i)]. *)
Fixpoint for_loop (n : nat) (from : nat) (body : nat -> M unit) : M unit :=
  match n with
  | O => ret tt
  | S m => body from ;;; for_loop m (S from) body
  end.

(** Modelled from the spec: utils.deepAccess of src/utils.js, which is not
    among the sources. It follows a dotted path from [obj] and yields
    [undefined] as soon as a step is missing: a falsy intermediate value is
    not dereferenced. *)
Fixpoint deepAccess (obj : value) (path : list string) : value :=
  match path with
  | [] => obj
  | k :: r => deepAccess (if truthy obj then member obj k else VUndef) r
  end.

(** ** The adapter *)

Definition BIDDER_CODE : string := "freedomadnetwork".
Definition BASE_URL : string := "https://srv.freedomadnetwork.com".

(** The outbound request descriptor that [buildBidRequest] returns. *)
Record RequestOptions := {
  contentType : string;
  withCredentials : bool;
  customHeaders : gmap string string
}.

Record Request := {
  method : string;
  url : string;
  data : option json;
  options : RequestOptions;
  originalBidRequest : value
}.

(** [s.split('-')[0]]: the part of [s] before its first dash. *)
Fixpoint before_dash (s : string) : string :=
  match s with
  | EmptyString => EmptyString
  | String c r => if Ascii.eqb c "-" then EmptyString else String c (before_dash r)
  end.

(** [path.split('.')]. *)
Fixpoint split_dot (path : string) : list string :=
  match path with
  | EmptyString => [EmptyString]
  | String c r =>
      if Ascii.eqb c "." then EmptyString :: split_dot r
      else match split_dot r with
           | [] => [String c EmptyString]
           | k :: ks => String c k :: ks
           end
  end.

(** [a || b] on strings that may be undefined. *)
Definition str_or (a b : option string) : option string :=
  match a with
  | Some s => if String.eqb s "" then b else a
  | None => b
  end.

Section Adapter.

Variable env : Env.

(** Generate stable user id. *)
Definition generateUserId : M string :=
  let hash := MD5.MD5 (navigator_userAgent env) in
  ret hash.

(** Get user id from bid request. *)
Definition getUserId (bidRequest : value) : M string :=
  generateUserId.

(** Get browser language. *)
Definition getLanguage : string :=
  let lang :=
    str_or (str_or (match navigator_languages env with
                    | Some l => head l
                    | None => None
                    end)
                   (navigator_language env))
           (navigator_userLanguage env) in
  match lang with
  | Some s => if String.eqb s "" then "en" else before_dash s
  | None => "en"
  end.

(** [device.k = v], where [device] is the store's own object when [shared]
    and a fresh one otherwise. *)
Definition assign (shared : bool) (device : gmap string value)
    (k : string) (v : value) : M (gmap string value) :=
  let device' := <[k := v]> device in
  (if shared then set_device device' else ret tt) ;;;
  ret device'.

(** Get device info. *)
Definition getDevice : M (gmap string value) :=
  c <- get_cfg ;;
  let shared := bool_decide (is_Some (cfg_device c)) in
  let device := default ∅ (cfg_device c) in
  device <- assign shared device "w"
              (js_or (member (VObj device) "w") (VNum (screen_width env))) ;;
  device <- assign shared device "h"
              (js_or (member (VObj device) "h") (VNum (screen_height env))) ;;
  device <- assign shared device "ua"
              (js_or (member (VObj device) "ua") (VStr (navigator_userAgent env))) ;;
  device <- assign shared device "language"
              (js_or (member (VObj device) "language") (VStr getLanguage)) ;;
  device <- assign shared device "dnt"
              (if is_number (member (VObj device) "dnt")
               then member (VObj device) "dnt"
               else VNum (if getDNT env then 1 else 0)) ;;
  ret device.

(** Build OpenRTB request from bidRequest and bidderRequest. The object
    [payload.user] is held in [user] until the payload is serialized. *)
Definition buildBidRequest (bid bidderRequest : value) : M Request :=
  userId <- getUserId bid ;;
  id <- get_prop bid "bidId" ;;
  tmax <- get_prop bidderRequest "timeout" ;;
  params <- get_prop bid "params" ;;
  placementId <- get_prop params "placementId" ;;
  c <- get_cfg ;;
  let test := VNum (if truthy (cfg_debug c) then 1 else 0) in
  device <- getDevice ;;
  c <- get_cfg ;;
  let user : gmap string value :=
    {[ "coppa" := VNum (if truthy (cfg_coppa c) then 1 else 0) ]} in
  let gdprConsent := deepAccess bidderRequest (split_dot "gdprConsent") in
  let user :=
    if truthy gdprConsent && truthy (member gdprConsent "gdprApplies")
    then <["consent" := member gdprConsent "consentString"]>
           (<["gdpr" := VNum 1]> user)
    else user in
  let uspConsent := deepAccess bidderRequest (split_dot "uspConsent") in
  let user :=
    if truthy uspConsent then <["usp" := uspConsent]> user else user in
  let payload : gmap string value :=
    list_to_map
      [ ("id", id); ("tmax", tmax); ("placements", VArr [placementId]);
        ("test", test); ("device", VObj device); ("at", VNum 2);
        ("user", VObj user) ] in
  ret {| method := "POST";
         url := BASE_URL +:+ "/pb/req";
         data := JSON_stringify (VObj payload);
         options :=
           {| contentType := "application/json";
              withCredentials := false;
              customHeaders :=
                <["Authorization" := "Bearer " +:+ userId]>
                  {[ "Accept-Language" := "en;q=10" ]} |};
         originalBidRequest := bid |}.

Definition isBidRequestValid (bid : value) : M bool :=
  if negb (truthy bid) then
    emit (LogWarn [VStr BIDDER_CODE; VStr "Invalid bid"; bid]) ;;;
    ret false
  else
    params <- get_prop bid "params" ;;
    if negb (truthy params) then
      emit (LogWarn [VStr BIDDER_CODE; VStr "bid.params is required"]) ;;;
      ret false
    else
      placementId <- get_prop params "placementId" ;;
      if negb (truthy placementId) then
        emit (LogWarn [VStr BIDDER_CODE; VStr "bid.params.placementId is required"]) ;;;
        ret false
      else
        let banner := deepAccess bid (split_dot "mediaTypes.banner") in
        if is_undefined banner then ret false
        else ret true.

(** [validBidRequests.map(bid => buildBidRequest(bid, bidderRequest))]. *)
Definition buildRequests (validBidRequests bidderRequest : value) : M (list Request) :=
  match validBidRequests with
  | VArr l => mapM (fun bid => buildBidRequest bid bidderRequest) l
  | _ => throw (TypeError "validBidRequests.map is not a function")
  end.

(** The body of the [forEach] callback of [interpretResponse]. *)
Definition bidResponse (response : value) : M value :=
  requestId <- get_prop response "id" ;;
  bidid <- get_prop response "bidid" ;;
  impid <- get_prop response "impid" ;;
  userId <- get_prop response "userId" ;;
  cpm <- get_prop response "cpm" ;;
  currency <- get_prop response "currency" ;;
  width <- get_prop response "width" ;;
  height <- get_prop response "height" ;;
  ad <- get_prop response "payload" ;;
  ttl <- get_prop response "ttl" ;;
  creativeId <- get_prop response "crid" ;;
  netRevenue <- get_prop response "netRevenue" ;;
  trackers <- get_prop response "trackers" ;;
  mediaType <- get_prop response "mediaType" ;;
  advertiserDomains <- get_prop response "domains" ;;
  ret (VObj (list_to_map
    [ ("requestId", requestId); ("bidid", bidid); ("impid", impid);
      ("userId", userId); ("cpm", cpm); ("currency", currency);
      ("width", width); ("height", height); ("ad", ad); ("ttl", ttl);
      ("creativeId", creativeId); ("netRevenue", netRevenue);
      ("trackers", trackers);
      ("meta", VObj (list_to_map
         [ ("mediaType", mediaType);
           ("advertiserDomains", advertiserDomains) ])) ])).

(** Unpack the response from the server into a list of bids. *)
Definition interpretResponse (serverResponse bidRequest : value) : M (list value) :=
  serverBody <- get_prop serverResponse "body" ;;
  if negb (truthy serverBody) then ret []
  else
    match serverBody with
    | VArr l => mapM bidResponse l
    | _ => throw (TypeError "serverBody.forEach is not a function")
    end.

(** One turn of the loop of [onBidWon] over [trackers]. *)
Definition fire_tracker (trackers : value) (i : nat) : M unit :=
  type <- get_prop (element trackers i) "type" ;;
  is_impression <- lift (loose_eq_zero type) ;;
  if (is_impression : bool) then
    url <- get_prop (element trackers i) "url" ;;
    emit (TriggerPixel url)
  else ret tt.

(** Runs if a bid from this bidder won the auction. The loop bound
    [bid.trackers.length] does not change while the loop runs and is read
    once. *)
Definition onBidWon (bid : value) : M unit :=
  if negb (truthy bid) then ret tt
  else
    id <- get_prop bid "bidid" ;;
    impid <- get_prop bid "impid" ;;
    t <- get_prop bid "cpm" ;;
    let payload : gmap string value :=
      list_to_map [ ("id", id); ("impid", impid); ("t", t) ] in
    userId <- get_prop bid "userId" ;;
    emit (Ajax (BASE_URL +:+ "/pb/imp") (JSON_stringify (VObj payload)) "POST"
               (<["Authorization" := "Bearer " +:+ ToString userId]>
                  {[ "Accept-Language" := "en;q=10" ]})) ;;;
    trackers <- get_prop bid "trackers" ;;
    if truthy trackers then
      length <- get_prop trackers "length" ;;
      n <- lift (ToNumber length) ;;
      if number_lt (Fin 0) n then
        match n with
        | Fin k => for_loop (Z.to_nat k) 0 (fire_tracker trackers)
        | NaN => ret tt
        end
      else ret tt
    else ret tt.

Definition onSetTargeting (bid : value) : M unit := ret tt.

Definition onBidderError (error : value) : M unit :=
  emit (LogError [VStr (BIDDER_CODE +:+ " bidder error"); error]).

Definition getUserSyncs (syncOptions serverResponses gdprConsent uspConsent : value)
    : M (list value) :=
  ret [].

Definition onTimeout (timeoutData : value) : M unit := ret tt.

End Adapter.

(** ** Sample inputs *)
Module Samples.

Definition env0 : Env :=
  {| navigator_languages := Some ["en-US"; "fr"];
     navigator_language := Some "en-US";
     navigator_userLanguage := None;
     navigator_userAgent := "Mozilla/5.0";
     screen_width := 1920;
     screen_height := 1080;
     getDNT := false |}.

(** No device override configured. *)
Definition st0 : state :=
  {| cfg := {| cfg_debug := VBool true; cfg_coppa := VUndef; cfg_device := None |};
     log := [] |}.

(** An empty device override configured. *)
Definition st1 : state :=
  {| cfg := {| cfg_debug := VBool true; cfg_coppa := VUndef; cfg_device := Some ∅ |};
     log := [] |}.

(** A device override that sets a width and a do-not-track text. *)
Definition st2 : state :=
  {| cfg := {| cfg_debug := VUndef; cfg_coppa := VBool true;
               cfg_device := Some {[ "w" := VNum 300; "dnt" := VStr "yes" ]} |};
     log := [] |}.

Definition bid0 : value :=
  VObj (list_to_map
    [ ("bidId", VStr "bid-1");
      ("params", VObj {[ "placementId" := VStr "pl-7" ]});
      ("mediaTypes", VObj {[ "banner" := VObj ∅ ]}) ]).

Definition bidderRequest0 : value :=
  VObj (list_to_map
    [ ("timeout", VNum 3000);
      ("gdprConsent", VObj (list_to_map
         [ ("gdprApplies", VBool true); ("consentString", VStr "CONSENT") ]));
      ("uspConsent", VStr "1YNN") ]).

(** An auction context without consent signals. *)
Definition bidderRequest1 : value := VObj {[ "timeout" := VNum 1500 ]}.

(** A response with one well-formed entry and one with a [null] entry. *)
Definition entry0 : value :=
  VObj (list_to_map
    [ ("id", VStr "bid-1"); ("cpm", VNum 2);
      ("domains", VArr [VStr "example.com"]) ]).

Definition response0 : value := VObj {[ "body" := VArr [entry0; VObj ∅] ]}.

Definition response_null : value := VObj {[ "body" := VArr [entry0; VNull] ]}.

Definition tracker0 : value :=
  VObj (list_to_map [ ("type", VNum 0); ("url", VStr "https://t.example/0") ]).

Definition tracker1 : value :=
  VObj (list_to_map [ ("type", VNum 1); ("url", VStr "https://t.example/1") ]).

Definition won0 : value :=
  VObj (list_to_map
    [ ("bidid", VStr "b-9"); ("impid", VStr "i-3"); ("cpm", VNum 2);
      ("userId", VStr "u-1"); ("trackers", VArr [tracker0; tracker1]) ]).

End Samples.

(** ** Predicates used in the statements *)

(** A tracker as the data model has it: an object with a numeric type code. *)
Definition tracker_ok (t : value) : Prop :=
  nullish t = false /\ is_number (member t "type") = true.

(** The tracker's type code is the number [c]. *)
Definition has_type_code (c : Z) (t : value) : bool :=
  match member t "type" with
  | VNum n => n =? c
  | _ => false
  end.


(** The request sent by [onBidWon] for [bid]. *)
Definition win_notice (bid : value) : event :=
  Ajax "https://srv.freedomadnetwork.com/pb/imp"
       (JSON_stringify (VObj (list_to_map
          [ ("id", member bid "bidid"); ("impid", member bid "impid");
            ("t", member bid "cpm") ])))
       "POST"
       (<["Authorization" := "Bearer " +:+ ToString (member bid "userId")]>
          {[ "Accept-Language" := "en;q=10" ]}).



(** The properties that [getDevice] may write. *)
Definition device_fields : list string := ["w"; "h"; "ua"; "language"; "dnt"].

(** A property value that [getDevice] keeps as it is. *)
Definition kept (k : string) (v : value) : bool :=
  if String.eqb k "dnt" then is_number v else truthy v.

(** The device override [o'] comes from [o] by filling unset fields. *)
Definition filled (o o' : gmap string value) : Prop :=
  forall k, (k ∉ device_fields -> o' !! k = o !! k) /\
            (forall v, o !! k = Some v -> kept k v = true -> o' !! k = Some v).

(** What the callback builds from an entry that can be dereferenced. *)
Definition copied (e b : value) : Prop :=
  member b "requestId" = member e "id" /\
  member b "cpm" = member e "cpm" /\
  member b "ad" = member e "payload" /\
  member b "trackers" = member e "trackers" /\
  member (member b "meta") "advertiserDomains" = member e "domains".

(** The pixels fired in a trace, oldest first. *)
Definition fired_pixels (l : list event) : list value :=
  omap (fun e => match e with TriggerPixel u => Some u | _ => None end) l.

(** What building requests leaves of a state: the trace, the debug and
    COPPA entries, and of the device override every property it does not
    fill. *)
Definition config_kept (st st' : state) : Prop :=
  log st' = log st /\
  cfg_debug (cfg st') = cfg_debug (cfg st) /\
  cfg_coppa (cfg st') = cfg_coppa (cfg st) /\
  match cfg_device (cfg st) with
  | None => cfg_device (cfg st') = None
  | Some o => exists o', cfg_device (cfg st') = Some o' /\ filled o o'
  end.

Definition preserves {A} (m : M A) : Prop :=
  forall st, config_kept st (m st).2.

(** The [ajax] calls made in a trace, oldest first. *)
Definition ajax_calls (l : list event) : list event :=
  List.filter (fun e => match e with Ajax _ _ _ _ => true | _ => false end) l.

(** The event is a pixel being fired. *)
Definition is_pixel (e : event) : bool :=
  match e with
  | TriggerPixel _ => true
  | _ => false
  end.

(** A computation that leaves the state as it finds it, however it ends. *)
Definition stateless {A} (m : M A) : Prop :=
  forall st, (m st).2 = st.

(** A computation that does nothing to the state but fire pixels, however
    it ends. *)
Definition only_pixels {A} (m : M A) : Prop :=
  forall st,
    cfg (m st).2 = cfg st /\
    exists rest, log (m st).2 = log st ++ rest /\
                 Forall (fun e => is_pixel e = true) rest.

(** The state after the device object of the store has become [d]; a state
    without a device override stays as it is. *)
Definition with_device (st : state) (d : gmap string value) : state :=
  match cfg_device (cfg st) with
  | Some _ =>
      {| cfg := {| cfg_debug := cfg_debug (cfg st);
                   cfg_coppa := cfg_coppa (cfg st);
                   cfg_device := Some d |};
         log := log st |}
  | None => st
  end.

(** A bid request and an auction context whose members [buildBidRequest]
    can read. *)
Definition derefs (bid br : value) : Prop :=
  nullish bid = false /\ nullish br = false /\
  nullish (member bid "params") = false.

(** The property names of an interpreted bid and of its [meta]. *)
Definition bid_keys : gset string :=
  list_to_set
    [ "requestId"; "bidid"; "impid"; "userId"; "cpm"; "currency"; "width";
      "height"; "ad"; "ttl"; "creativeId"; "netRevenue"; "trackers"; "meta" ].

Definition meta_keys : gset string :=
  list_to_set [ "mediaType"; "advertiserDomains" ].

(** An interpreted bid [b] is the entry [e] under the adapter's renaming. *)
Definition renamed (e b : value) : Prop :=
  member b "requestId" = member e "id" /\
  member b "bidid" = member e "bidid" /\
  member b "impid" = member e "impid" /\
  member b "userId" = member e "userId" /\
  member b "cpm" = member e "cpm" /\
  member b "currency" = member e "currency" /\
  member b "width" = member e "width" /\
  member b "height" = member e "height" /\
  member b "ad" = member e "payload" /\
  member b "ttl" = member e "ttl" /\
  member b "creativeId" = member e "crid" /\
  member b "netRevenue" = member e "netRevenue" /\
  member b "trackers" = member e "trackers" /\
  member (member b "meta") "mediaType" = member e "mediaType" /\
  member (member b "meta") "advertiserDomains" = member e "domains" /\
  exists o m, b = VObj o /\ dom o = bid_keys /\
              o !! "meta" = Some (VObj m) /\ dom m = meta_keys.

(** Further sample inputs. *)
Module MoreSamples.

(** A browser that reports no language list and a Canadian French locale. *)
Definition env1 : Env :=
  {| navigator_languages := Some [""; "de-DE"];
     navigator_language := Some "fr-CA";
     navigator_userLanguage := None;
     navigator_userAgent := "Mozilla/5.0";
     screen_width := 1280;
     screen_height := 720;
     getDNT := true |}.

(** A browser that reports no usable language at all. *)
Definition env2 : Env :=
  {| navigator_languages := Some [""; "de-DE"];
     navigator_language := Some "";
     navigator_userLanguage := None;
     navigator_userAgent := "Mozilla/5.0";
     screen_width := 1280;
     screen_height := 720;
     getDNT := true |}.

(** A bid request without params. *)
Definition bid_no_params : value :=
  VObj {[ "bidId" := VStr "bid-2" ]}.

(** A full server entry. *)
Definition entry1 : value :=
  VObj (list_to_map
    [ ("id", VStr "bid-1"); ("bidid", VStr "b-9"); ("impid", VStr "i-3");
      ("userId", VStr "u-1"); ("cpm", VNum 2); ("currency", VStr "USD");
      ("width", VNum 300); ("height", VNum 250); ("payload", VStr "<div/>");
      ("ttl", VNum 360); ("crid", VStr "c-5"); ("netRevenue", VBool true);
      ("trackers", VArr [Samples.tracker0; Samples.tracker1]);
      ("mediaType", VStr "banner"); ("domains", VArr [VStr "example.com"]) ]).

Definition response1 : value := VObj {[ "body" := VArr [entry1] ]}.

(** A winning bid whose second tracker is [null]. *)
Definition won_bad : value :=
  VObj (list_to_map
    [ ("bidid", VStr "b-9"); ("impid", VStr "i-3"); ("cpm", VNum 2);
      ("userId", VStr "u-1");
      ("trackers", VArr [Samples.tracker0; VNull; Samples.tracker0]) ]).

(** A winning bid whose only tracker has the type [false]. *)
Definition won_false : value :=
  VObj (list_to_map
    [ ("bidid", VStr "b-9"); ("impid", VStr "i-3"); ("cpm", VNum 2);
      ("userId", VStr "u-1");
      ("trackers", VArr [VObj (list_to_map
         [ ("type", VBool false); ("url", VStr "https://t.example/f") ])]) ]).



(** A winning bid whose tracker list is a text. *)
Definition won_text : value :=
  VObj (list_to_map
    [ ("bidid", VStr "b-9"); ("impid", VStr "i-3"); ("cpm", VNum 2);
      ("userId", VStr "u-1"); ("trackers", VStr "none") ]).

End MoreSamples.

(** ** Properties *)

Lemma truthy_not_nullish v : truthy v = true -> nullish v = false.
Proof. by destruct v. Qed.

Lemma get_prop_ok v k st :
  nullish v = false -> get_prop v k st = (Ok (member v k), st).
Proof. intros H. unfold get_prop. by rewrite H. Qed.

Lemma get_prop_throw v k st :
  nullish v = true -> exists e, get_prop v k st = (Throw e, st).
Proof. intros H. unfold get_prop. rewrite H. by eexists. Qed.

Lemma get_prop_state v k st : (get_prop v k st).2 = st.
Proof. unfold get_prop. by destruct (nullish v). Qed.

Lemma bind_ok {A B} (m : M A) (k : A -> M B) st a st' :
  m st = (Ok a, st') -> bind m k st = k a st'.
Proof. intros H. unfold bind. by rewrite H. Qed.

Lemma bind_throw {A B} (m : M A) (k : A -> M B) st e st' :
  m st = (Throw e, st') -> bind m k st = (Throw e, st').
Proof. intros H. unfold bind. by rewrite H. Qed.

(** Runs one member access on a value known not to be nullish. *)
Ltac js_get Hn :=
  rewrite (bind_ok _ _ _ _ _ (get_prop_ok _ _ _ Hn)); cbv beta.

Lemma member_truthy_obj v k :
  k <> "length" -> truthy (member v k) = true -> exists o, v = VObj o.
Proof.
  intros Hk H. destruct v; simpl in H; try discriminate; eauto.
  all: apply String.eqb_neq in Hk; by rewrite Hk in H.
Qed.

Lemma deepAccess_1 v k :
  k <> "length" -> deepAccess v [k] = member v k.
Proof.
  intros Hk. apply String.eqb_neq in Hk. simpl.
  destruct (truthy v) eqn:Hv; [done|].
  destruct v; simpl in *; rewrite ?Hk; try done.
Qed.

(** The value of the validity check, in one expression. *)
Lemma isBidRequestValid_value bid st :
  (isBidRequestValid bid st).1 =
  Ok (truthy bid && truthy (member bid "params")
      && truthy (member (member bid "params") "placementId")
      && negb (is_undefined (deepAccess bid (split_dot "mediaTypes.banner")))).
Proof.
  unfold isBidRequestValid.
  destruct (truthy bid) eqn:Hb; simpl; [|done].
  rewrite (bind_ok _ _ _ _ _ (get_prop_ok _ _ _ (truthy_not_nullish _ Hb))).
  destruct (truthy (member bid "params")) eqn:Hp; simpl; [|done].
  rewrite (bind_ok _ _ _ _ _ (get_prop_ok _ _ _ (truthy_not_nullish _ Hp))).
  destruct (truthy (member (member bid "params") "placementId")); simpl; [|done].
  by destruct (is_undefined _).
Qed.

(** C3: a bid request that is absent, has no params, has no
    params.placementId, or declares no banner media type
    (mediaTypes.banner undefined) is rejected; one with params.placementId
    present and a banner declaration is accepted. *)
Theorem isBidRequestValid_spec (bid : value) (st : state) :
  (truthy bid = false \/
   truthy (member bid "params") = false \/
   truthy (member (member bid "params") "placementId") = false \/
   deepAccess bid (split_dot "mediaTypes.banner") = VUndef ->
   (isBidRequestValid bid st).1 = Ok false) /\
  (truthy (member (member bid "params") "placementId") = true ->
   deepAccess bid (split_dot "mediaTypes.banner") <> VUndef ->
   (isBidRequestValid bid st).1 = Ok true).
Proof.
  rewrite isBidRequestValid_value. split.
  - intros [H|[H|[H|H]]]; rewrite H; simpl;
      rewrite ?andb_false_r; done.
  - intros Hpid Hb. rewrite Hpid.
    set (banner := deepAccess _ _) in *.
    destruct (member_truthy_obj (member bid "params") "placementId"
                ltac:(discriminate) Hpid) as [p Hp].
    assert (truthy (member bid "params") = true) as -> by by rewrite Hp.
    assert (truthy (member bid "params") = true) as Hpt by by rewrite Hp.
    destruct (member_truthy_obj bid "params" ltac:(discriminate) Hpt) as [o ->].
    simpl. by destruct banner.
Qed.

Lemma isBidRequestValid_spec_witness :
  (isBidRequestValid VUndef Samples.st0).1 = Ok false /\
  (isBidRequestValid Samples.bid0 Samples.st0).1 = Ok true.
Proof.
  split.
  - apply (proj1 (isBidRequestValid_spec VUndef Samples.st0)). left. reflexivity.
  - apply (proj2 (isBidRequestValid_spec Samples.bid0 Samples.st0)).
    + vm_compute. reflexivity.
    + vm_compute. discriminate.
Defined.

(** *** Response interpretation *)

Lemma bidResponse_ok e st :
  nullish e = false -> exists b, bidResponse e st = (Ok b, st) /\ copied e b.
Proof.
  intros H. unfold bidResponse, bind, get_prop. rewrite H. simpl.
  eexists. split; [reflexivity|]. by repeat split.
Qed.

Lemma bidResponse_throw e st :
  nullish e = true -> exists err, bidResponse e st = (Throw err, st).
Proof.
  intros H. unfold bidResponse, bind, get_prop. rewrite H. simpl. by eexists.
Qed.

Lemma mapM_Forall2 {A B} (f : A -> M B) (R : A -> B -> Prop) l st :
  Forall (fun x => exists y, f x st = (Ok y, st) /\ R x y) l ->
  exists ys, mapM f l st = (Ok ys, st) /\ Forall2 R l ys.
Proof.
  induction 1 as [|x l (y & Hy & HR) _ (ys & Hys & IH)]; simpl.
  - exists []. split; [done|constructor].
  - exists (y :: ys). split; [|by constructor].
    rewrite (bind_ok _ _ _ _ _ Hy), (bind_ok _ _ _ _ _ Hys). done.
Qed.

Lemma mapM_bidResponse_inv l st bids :
  (mapM bidResponse l st).1 = Ok bids -> Forall (fun e => nullish e = false) l.
Proof.
  revert bids. induction l as [|e l IH]; intros bids; simpl; [constructor|].
  destruct (nullish e) eqn:He.
  - destruct (bidResponse_throw e st He) as [err Herr].
    by rewrite (bind_throw _ _ _ _ _ Herr).
  - destruct (bidResponse_ok e st He) as (b & Hb & _).
    rewrite (bind_ok _ _ _ _ _ Hb). unfold bind at 1.
    destruct (mapM bidResponse l st) as [[ys| |] st'] eqn:Hm; simpl; try done.
    intros _. constructor; [done|]. apply (IH ys). done.
Qed.

Lemma interpretResponse_array resp br st l :
  nullish resp = false -> member resp "body" = VArr l ->
  interpretResponse resp br st = mapM bidResponse l st.
Proof.
  intros Hr Hb. unfold interpretResponse.
  rewrite (bind_ok _ _ _ _ _ (get_prop_ok _ _ _ Hr)), Hb. done.
Qed.

(** C2, as amended: when the body is an array, the interpretation returns
    normally exactly when no entry is [null] or [undefined]; entries that
    lack the copied fields do not make it throw. *)
Theorem interpretResponse_returns (resp br : value) (st : state) (l : list value) :
  nullish resp = false ->
  member resp "body" = VArr l ->
  (exists bids, interpretResponse resp br st = (Ok bids, st)) <->
  Forall (fun e => nullish e = false) l.
Proof.
  intros Hr Hb. rewrite (interpretResponse_array _ _ _ _ Hr Hb). split.
  - intros [bids H]. apply (mapM_bidResponse_inv l st bids). by rewrite H.
  - intros H.
    destruct (mapM_Forall2 bidResponse copied l st) as (ys & Hys & _); [|eauto].
    eapply Forall_impl; [exact H|]. intros e He. by apply bidResponse_ok.
Qed.

Lemma interpretResponse_returns_witness :
  exists bids,
    interpretResponse Samples.response0 VUndef Samples.st0 = (Ok bids, Samples.st0).
Proof.
  apply (interpretResponse_returns Samples.response0 VUndef Samples.st0
           [Samples.entry0; VObj ∅]).
  - reflexivity.
  - vm_compute. reflexivity.
  - repeat constructor.
Defined.

(** C2, as stated, fails: an array body with a [null] entry makes
    [interpretResponse] throw. *)
Lemma interpretResponse_null_entry_throws :
  member Samples.response_null "body" = VArr [Samples.entry0; VNull] /\
  (interpretResponse Samples.response_null VUndef Samples.st0).1 =
    Throw (TypeError "Cannot read properties of null").
Proof. split; vm_compute; reflexivity. Qed.

(** C6: a response whose body is absent or empty is interpreted as the empty
    list, without an exception. *)
Theorem interpretResponse_empty (resp br : value) (st : state) :
  nullish resp = false ->
  truthy (member resp "body") = false \/ member resp "body" = VArr [] ->
  interpretResponse resp br st = (Ok [], st).
Proof.
  intros Hr H. unfold interpretResponse.
  rewrite (bind_ok _ _ _ _ _ (get_prop_ok _ _ _ Hr)).
  destruct H as [H|H]; rewrite H; done.
Qed.

Lemma interpretResponse_empty_witness :
  interpretResponse (VObj ∅) VUndef Samples.st0 = (Ok [], Samples.st0) /\
  interpretResponse (VObj {[ "body" := VArr [] ]}) VUndef Samples.st0
    = (Ok [], Samples.st0).
Proof.
  split.
  - apply (interpretResponse_empty (VObj ∅) VUndef Samples.st0).
    + reflexivity.
    + left. vm_compute. reflexivity.
  - apply (interpretResponse_empty (VObj {[ "body" := VArr [] ]}) VUndef Samples.st0).
    + reflexivity.
    + right. vm_compute. reflexivity.
Defined.

(** C7: a body of N entries that can be dereferenced yields N bids, the
    i-th built from the i-th entry (nothing sorted, dropped or merged), with
    meta.advertiserDomains the entry's domain list. *)
Theorem interpretResponse_in_order (resp br : value) (st : state) (entries : list value) :
  nullish resp = false ->
  member resp "body" = VArr entries ->
  Forall (fun e => nullish e = false) entries ->
  exists bids,
    interpretResponse resp br st = (Ok bids, st) /\
    length bids = length entries /\
    forall i e, entries !! i = Some e ->
      exists b, bids !! i = Some b /\
        member b "requestId" = member e "id" /\
        member (member b "meta") "advertiserDomains" = member e "domains".
Proof.
  intros Hr Hb H. rewrite (interpretResponse_array _ _ _ _ Hr Hb).
  destruct (mapM_Forall2 bidResponse copied entries st) as (bids & Hbids & HR).
  { eapply Forall_impl; [exact H|]. intros e He. by apply bidResponse_ok. }
  exists bids. split; [done|]. split.
  - symmetry. by eapply Forall2_length.
  - intros i e Hi.
    destruct (Forall2_lookup_l _ _ _ _ _ HR Hi) as (b & Hbi & Hc).
    exists b. split; [done|]. destruct Hc as (? & _ & _ & _ & ?). done.
Qed.

Lemma interpretResponse_in_order_witness :
  exists bids,
    interpretResponse Samples.response0 VUndef Samples.st0 = (Ok bids, Samples.st0) /\
    length bids = 2%nat /\
    forall i e, [Samples.entry0; VObj ∅] !! i = Some e ->
      exists b, bids !! i = Some b /\
        member b "requestId" = member e "id" /\
        member (member b "meta") "advertiserDomains" = member e "domains".
Proof.
  apply (interpretResponse_in_order Samples.response0 VUndef Samples.st0
           [Samples.entry0; VObj ∅]).
  - reflexivity.
  - vm_compute. reflexivity.
  - repeat constructor.
Defined.

(** *** Win notification *)

Lemma fire_tracker_ok pre t suf st :
  tracker_ok t ->
  fire_tracker (VArr (pre ++ t :: suf)) (length pre) st =
  (Ok tt, {| cfg := cfg st;
             log := log st ++ (if has_type_code 0 t
                               then [TriggerPixel (member t "url")] else []) |}).
Proof.
  intros [Hn Ht]. unfold fire_tracker, element.
  rewrite list_lookup_middle by done. simpl.
  rewrite (bind_ok _ _ _ _ _ (get_prop_ok _ _ _ Hn)).
  unfold has_type_code. destruct (member t "type") eqn:Hty; try discriminate.
  unfold bind at 1, lift, loose_eq_zero. simpl.
  destruct (n =? 0).
  - rewrite (bind_ok _ _ _ _ _ (get_prop_ok _ _ _ Hn)). done.
  - unfold ret. destruct st. simpl. by rewrite app_nil_r.
Qed.

Lemma for_loop_trackers suf : forall pre st,
  Forall tracker_ok suf ->
  for_loop (length suf) (length pre) (fire_tracker (VArr (pre ++ suf))) st =
  (Ok tt, {| cfg := cfg st;
             log := log st ++ map (fun t => TriggerPixel (member t "url"))
                                  (List.filter (has_type_code 0) suf) |}).
Proof.
  induction suf as [|t suf IH]; intros pre st H; simpl.
  - unfold ret. destruct st. simpl. by rewrite app_nil_r.
  - inversion H as [|? ? Ht Hs]; subst.
    rewrite (bind_ok _ _ _ _ _ (fire_tracker_ok pre t suf st Ht)).
    specialize (IH (pre ++ [t])). rewrite length_app, Nat.add_1_r in IH.
    rewrite <- app_assoc in IH. simpl in IH. rewrite IH by done. simpl.
    destruct (has_type_code 0 t); simpl; by rewrite <- ?app_assoc.
Qed.

Lemma onBidWon_trackers bid st ts :
  member bid "trackers" = VArr ts ->
  Forall tracker_ok ts ->
  onBidWon bid st =
  (Ok tt, {| cfg := cfg st;
             log := log st ++ win_notice bid ::
                    map (fun t => TriggerPixel (member t "url"))
                        (List.filter (has_type_code 0) ts) |}).
Proof.
  intros Htr H.
  assert (truthy bid = true) as Hb by (by destruct bid).
  pose proof (truthy_not_nullish _ Hb) as Hn.
  unfold onBidWon. rewrite Hb. cbn [negb].
  do 4 js_get Hn.
  unfold bind at 1, emit. cbv beta iota.
  js_get Hn. rewrite Htr.
  change (truthy (VArr ts)) with true. cbv iota.
  rewrite (bind_ok _ _ _ _ _ (get_prop_ok (VArr ts) "length" _ eq_refl)).
  change (member (VArr ts) "length") with (VNum (Z.of_nat (length ts))).
  unfold bind at 1, lift, ToNumber, number_lt. cbv beta iota.
  destruct ts as [|t ts].
  - simpl. unfold ret. done.
  - replace (0 <? Z.of_nat (length (t :: ts))) with true
      by (symmetry; apply Z.ltb_lt; simpl; lia).
    rewrite Nat2Z.id.
    rewrite (for_loop_trackers (t :: ts) [] _ H). simpl.
    by rewrite <- app_assoc.
Qed.

Lemma onBidWon_no_trackers bid st :
  truthy bid = true -> truthy (member bid "trackers") = false ->
  onBidWon bid st =
  (Ok tt, {| cfg := cfg st; log := log st ++ [win_notice bid] |}).
Proof.
  intros Hb Htr. pose proof (truthy_not_nullish _ Hb) as Hn.
  unfold onBidWon. rewrite Hb. cbn [negb].
  do 4 js_get Hn.
  unfold bind at 1, emit. cbv beta iota.
  js_get Hn. rewrite Htr. done.
Qed.

Lemma fired_pixels_app l1 l2 :
  fired_pixels (l1 ++ l2) = fired_pixels l1 ++ fired_pixels l2.
Proof. unfold fired_pixels. apply omap_app. Qed.

(** C8, as amended: for a winning bid whose trackers are all objects with
    a numeric type code, exactly the trackers of type code 0 have their
    pixel fired, in order, after the one win notification; trackers of
    another type code fire nothing. A bid without trackers fires no pixel,
    and a bid with two trackers of types 0 and 1 fires one pixel, at the URL
    of the first. *)
Theorem onBidWon_fires_impression_pixels (bid : value) (st : state) :
  (forall ts,
     member bid "trackers" = VArr ts -> Forall tracker_ok ts ->
     exists st',
       onBidWon bid st = (Ok tt, st') /\
       cfg st' = cfg st /\
       log st' = log st ++ win_notice bid ::
                 map (fun t => TriggerPixel (member t "url"))
                     (List.filter (has_type_code 0) ts)) /\
  (truthy bid = true -> truthy (member bid "trackers") = false ->
   exists st',
     onBidWon bid st = (Ok tt, st') /\
     cfg st' = cfg st /\
     log st' = log st ++ [win_notice bid]) /\
  (forall t0 t1,
     member bid "trackers" = VArr [t0; t1] ->
     nullish t0 = false -> nullish t1 = false ->
     member t0 "type" = VNum 0 -> member t1 "type" = VNum 1 ->
     exists st',
       onBidWon bid st = (Ok tt, st') /\
       fired_pixels (log st') = fired_pixels (log st) ++ [member t0 "url"]).
Proof.
  split_and!.
  - intros ts Htr H. eexists. split; [by apply onBidWon_trackers|]. done.
  - intros Hb Htr. eexists. split; [by apply onBidWon_no_trackers|]. done.
  - intros t0 t1 Htr H0 H1 Hty0 Hty1.
    assert (Forall tracker_ok [t0; t1]) as H.
    { repeat constructor; try done; unfold is_number; by rewrite ?Hty0, ?Hty1. }
    eexists. split; [by apply onBidWon_trackers|]. simpl.
    unfold has_type_code. rewrite Hty0, Hty1. simpl.
    rewrite fired_pixels_app. done.
Qed.

Lemma onBidWon_fires_impression_pixels_witness :
  (exists st',
     onBidWon Samples.won0 Samples.st0 = (Ok tt, st') /\
     cfg st' = cfg Samples.st0 /\
     log st' = [win_notice Samples.won0; TriggerPixel (VStr "https://t.example/0")]) /\
  (exists st',
     onBidWon Samples.won0 Samples.st0 = (Ok tt, st') /\
     fired_pixels (log st') = [VStr "https://t.example/0"]).
Proof.
  split.
  - apply (proj1 (onBidWon_fires_impression_pixels Samples.won0 Samples.st0)
             [Samples.tracker0; Samples.tracker1]).
    + vm_compute. reflexivity.
    + repeat constructor.
  - apply (proj2 (proj2 (onBidWon_fires_impression_pixels Samples.won0 Samples.st0))
             Samples.tracker0 Samples.tracker1);
      vm_compute; reflexivity.
Defined.

(** C8, as stated, fails. A tracker list with a [null] entry between two
    trackers of type 0 makes [onBidWon] throw at that entry: one pixel is
    fired, not two. And a tracker whose type is [false], which is not the
    type code 0, has its pixel fired, since the type is compared with [==]. *)
Lemma onBidWon_pixels_not_for_every_bid :
  truthy MoreSamples.won_bad = true /\
  member MoreSamples.won_bad "trackers"
    = VArr [Samples.tracker0; VNull; Samples.tracker0] /\
  member Samples.tracker0 "type" = VNum 0 /\
  (onBidWon MoreSamples.won_bad Samples.st0).1
    = Throw (TypeError "Cannot read properties of null") /\
  fired_pixels (log (onBidWon MoreSamples.won_bad Samples.st0).2)
    = [VStr "https://t.example/0"] /\
  truthy MoreSamples.won_false = true /\
  member (element (member MoreSamples.won_false "trackers") 0) "type"
    = VBool false /\
  (onBidWon MoreSamples.won_false Samples.st0).1 = Ok tt /\
  fired_pixels (log (onBidWon MoreSamples.won_false Samples.st0).2)
    = [VStr "https://t.example/f"].
Proof. split_and!; vm_compute; reflexivity. Qed.

(** C9: with an absent (falsy) bid, [onBidWon] returns at once: no network
    call, no pixel, the state is untouched. *)
Theorem onBidWon_absent (bid : value) (st : state) :
  truthy bid = false -> onBidWon bid st = (Ok tt, st).
Proof. intros H. unfold onBidWon. by rewrite H. Qed.

Lemma onBidWon_absent_witness :
  onBidWon VUndef Samples.st0 = (Ok tt, Samples.st0).
Proof. apply (onBidWon_absent VUndef Samples.st0). reflexivity. Defined.

(** *** User identifier *)





(** Numbers are printed as JavaScript prints them. *)
Example Number_toString_examples :
  map Number_toString
    [ 0; 300; -25; 2 ^ 53 - 1; 2 ^ 53 + 1; 2 ^ 64; - 2 ^ 64;
      10 ^ 21 - 1; 10 ^ 21; 2 ^ 70; 10 ^ 23; 2 ^ 100 ]
  = [ "0"; "300"; "-25"; "9007199254740991"; "9007199254740992";
      "18446744073709552000"; "-18446744073709552000";
      "1e+21"; "1e+21"; "1.1805916207174113e+21"; "1e+23";
      "1.2676506002282294e+30" ].
Proof. vm_compute. reflexivity. Qed.

(** The digest agrees with the test suite of RFC 1321. *)
Example MD5_test_suite :
  MD5.MD5 "" = "d41d8cd98f00b204e9800998ecf8427e" /\
  MD5.MD5 "a" = "0cc175b9c0f1b6a831c399e269772661" /\
  MD5.MD5 "abc" = "900150983cd24fb0d6963f7d28e17f72" /\
  MD5.MD5 "message digest" = "f96b697d7cb7938d525a2f31aaf161d0" /\
  MD5.MD5 "abcdefghijklmnopqrstuvwxyz" = "c3fcd3d76192e4007dfb496cca67e13b" /\
  MD5.MD5 "ABCDEFGHIJKLMNOPQRSTUVWXYZabcdefghijklmnopqrstuvwxyz0123456789"
    = "d174ab98d277d9f5a5611c2c9f419d9f" /\
  MD5.MD5 "12345678901234567890123456789012345678901234567890123456789012345678901234567890"
    = "57edf4a22be3c955ac49da2e2107b67a".
Proof. vm_compute. repeat split. Qed.



(** *** Request building *)

Lemma filled_refl o : filled o o.
Proof. by intros k. Qed.

Lemma filled_trans o1 o2 o3 : filled o1 o2 -> filled o2 o3 -> filled o1 o3.
Proof.
  intros H12 H23 k. destruct (H12 k) as [A1 B1], (H23 k) as [A2 B2]. split.
  - intros Hk. by rewrite A2, A1.
  - intros v Hv Hkept. apply B2; [|done]. by apply B1.
Qed.

Lemma config_kept_refl st : config_kept st st.
Proof.
  repeat split. destruct (cfg_device (cfg st)) as [o|]; [|done].
  exists o. split; [done|apply filled_refl].
Qed.

Lemma config_kept_trans st1 st2 st3 :
  config_kept st1 st2 -> config_kept st2 st3 -> config_kept st1 st3.
Proof.
  intros (L1 & D1 & C1 & V1) (L2 & D2 & C2 & V2).
  repeat split; try congruence.
  destruct (cfg_device (cfg st1)) as [o|].
  - destruct V1 as (o2 & E2 & F2). rewrite E2 in V2.
    destruct V2 as (o3 & E3 & F3). exists o3. split; [done|].
    by eapply filled_trans.
  - by rewrite V1 in V2.
Qed.

Lemma preserves_ret {A} (a : A) : preserves (ret a).
Proof. intros st. apply config_kept_refl. Qed.

Lemma preserves_throw {A} e : preserves (@throw A e).
Proof. intros st. apply config_kept_refl. Qed.

Lemma preserves_bind {A B} (m : M A) (k : A -> M B) :
  preserves m -> (forall a, preserves (k a)) -> preserves (bind m k).
Proof.
  intros Hm Hk st. unfold bind. specialize (Hm st).
  destruct (m st) as [[a|e|] st']; simpl in *; try done.
  eapply config_kept_trans; [exact Hm|apply Hk].
Qed.

Lemma preserves_get_prop v k : preserves (get_prop v k).
Proof. intros st. rewrite get_prop_state. apply config_kept_refl. Qed.

Lemma preserves_get_cfg : preserves get_cfg.
Proof. intros st. apply config_kept_refl. Qed.

Lemma preserves_mapM {A B} (f : A -> M B) l :
  (forall x, preserves (f x)) -> preserves (mapM f l).
Proof.
  intros Hf. induction l as [|x l IH]; simpl; [apply preserves_ret|].
  apply preserves_bind; [apply Hf|]. intros y.
  apply preserves_bind; [apply IH|]. intros ys. apply preserves_ret.
Qed.

(** The object [getDevice] returns, from the one it starts with. *)
Lemma getDevice_unset env st :
  cfg_device (cfg st) = None ->
  exists d, getDevice env st = (Ok d, st).
Proof.
  intros H. unfold getDevice, get_cfg, bind, assign, ret. rewrite H. simpl.
  by eexists.
Qed.

Lemma getDevice_set env st o :
  cfg_device (cfg st) = Some o ->
  exists d,
    getDevice env st =
      (Ok d, {| cfg := {| cfg_debug := cfg_debug (cfg st);
                          cfg_coppa := cfg_coppa (cfg st);
                          cfg_device := Some d |};
                log := log st |}) /\
    filled o d.
Proof.
  intros H. unfold getDevice, get_cfg, bind, assign, ret, set_device.
  rewrite H. simpl. eexists. split; [reflexivity|].
  intros k. split.
  - intros Hk. unfold device_fields in Hk.
    rewrite !lookup_insert_ne; [done|..]; intros <-; apply Hk; set_solver.
  - intros v Hv Hkept. unfold kept in Hkept.
    destruct (decide (k = "dnt")) as [->|Hdnt].
    { rewrite lookup_insert_eq. rewrite !lookup_insert_ne by done.
      rewrite Hv. simpl in *. by rewrite Hkept. }
    apply String.eqb_neq in Hdnt as Hdnt'. rewrite Hdnt' in Hkept.
    rewrite lookup_insert_ne by done.
    destruct (decide (k = "language")) as [->|Hl].
    { rewrite lookup_insert_eq. rewrite !lookup_insert_ne by done.
      rewrite Hv. simpl. unfold js_or. by rewrite Hkept. }
    rewrite lookup_insert_ne by done.
    destruct (decide (k = "ua")) as [->|Hu].
    { rewrite lookup_insert_eq. rewrite !lookup_insert_ne by done.
      rewrite Hv. simpl. unfold js_or. by rewrite Hkept. }
    rewrite lookup_insert_ne by done.
    destruct (decide (k = "h")) as [->|Hh].
    { rewrite lookup_insert_eq. rewrite !lookup_insert_ne by done.
      rewrite Hv. simpl. unfold js_or. by rewrite Hkept. }
    rewrite lookup_insert_ne by done.
    destruct (decide (k = "w")) as [->|Hw].
    { rewrite lookup_insert_eq. rewrite Hv. simpl. unfold js_or. by rewrite Hkept. }
    by rewrite lookup_insert_ne.
Qed.

Lemma preserves_getDevice env : preserves (getDevice env).
Proof.
  intros st. destruct (cfg_device (cfg st)) as [o|] eqn:H.
  - destruct (getDevice_set env st o H) as (d & -> & F). simpl.
    repeat split. rewrite H. by exists d.
  - destruct (getDevice_unset env st H) as (d & ->). apply config_kept_refl.
Qed.

Lemma preserves_buildBidRequest env bid br : preserves (buildBidRequest env bid br).
Proof.
  unfold buildBidRequest, getUserId, generateUserId.
  repeat first
    [ apply preserves_ret
    | apply preserves_get_prop
    | apply preserves_get_cfg
    | apply preserves_getDevice
    | apply preserves_bind; [|intros ?] ].
Qed.

Lemma preserves_buildRequests env bids br : preserves (buildRequests env bids br).
Proof.
  unfold buildRequests. destruct bids; try apply preserves_throw.
  apply preserves_mapM. intros bid. apply preserves_buildBidRequest.
Qed.

(** C1, as amended: building requests makes no network call and writes
    nothing to the trace, leaves the debug and COPPA entries as they are,
    and leaves the whole state unchanged when no device override is
    configured. A configured device-override object is filled in place: only
    its properties w, h, ua, language and dnt can change, and a truthy w, h,
    ua or language and a numeric dnt keep their value. *)
Theorem buildRequests_frame (env : Env) (bids br : value) (st : state) :
  let st' := (buildRequests env bids br st).2 in
  log st' = log st /\
  cfg_debug (cfg st') = cfg_debug (cfg st) /\
  cfg_coppa (cfg st') = cfg_coppa (cfg st) /\
  (cfg_device (cfg st) = None -> st' = st) /\
  (forall o, cfg_device (cfg st) = Some o ->
     exists o', cfg_device (cfg st') = Some o' /\ filled o o').
Proof.
  intros st'. destruct (preserves_buildRequests env bids br st) as (L & D & C & V).
  fold st' in L, D, C, V. repeat split; try done.
  - intros H. rewrite H in V.
    destruct st' as [[d' c' v'] l'], st as [[d c v] l]. simpl in *. congruence.
  - intros o H. by rewrite H in V.
Qed.

Lemma buildRequests_frame_witness :
  (buildRequests Samples.env0 (VArr [Samples.bid0]) Samples.bidderRequest0
     Samples.st0).2 = Samples.st0 /\
  exists o',
    cfg_device (cfg (buildRequests Samples.env0 (VArr [Samples.bid0])
                       Samples.bidderRequest0 Samples.st2).2) = Some o' /\
    filled {[ "w" := VNum 300; "dnt" := VStr "yes" ]} o'.
Proof.
  split.
  - apply (buildRequests_frame Samples.env0 (VArr [Samples.bid0])
             Samples.bidderRequest0 Samples.st0).
    reflexivity.
  - apply (buildRequests_frame Samples.env0 (VArr [Samples.bid0])
             Samples.bidderRequest0 Samples.st2).
    reflexivity.
Defined.

(** C1, as stated, fails: building the request of a valid bid writes the
    five device properties into the configured device-override object. *)
Lemma buildRequests_writes_device_override :
  (isBidRequestValid Samples.bid0 Samples.st1).1 = Ok true /\
  cfg_device (cfg Samples.st1) = Some ∅ /\
  cfg_device (cfg (buildRequests Samples.env0 (VArr [Samples.bid0])
                     Samples.bidderRequest0 Samples.st1).2) =
    Some (list_to_map
      [ ("w", VNum 1920); ("h", VNum 1080); ("ua", VStr "Mozilla/5.0");
        ("language", VStr "en"); ("dnt", VNum 0) ]).
Proof. repeat split; vm_compute; reflexivity. Qed.

Lemma member_reparsed_obj (o : gmap string value) k :
  member (JSON_parse (JObj (omap JSON_stringify o))) k =
  match o !! k with Some v => reparsed v | None => VUndef end.
Proof.
  simpl. rewrite lookup_fmap, lookup_omap. unfold reparsed.
  destruct (o !! k) as [v|]; simpl; [|done].
  by destruct (JSON_stringify v).
Qed.

Lemma reparsed_obj_lookup (o : gmap string value) :
  exists u, reparsed (VObj o) = VObj u /\
    forall k, u !! k = (o !! k) ≫= (fun v => JSON_parse <$> JSON_stringify v).
Proof.
  eexists. split; [reflexivity|]. intros k.
  by rewrite lookup_fmap, lookup_omap; destruct (o !! k).
Qed.

Lemma json_exact_array1 v :
  v <> VUndef -> json_exact v -> reparsed (VArr [v]) = VArr [v].
Proof.
  unfold json_exact, reparsed. intros Hv H. simpl.
  destruct (JSON_stringify v) eqn:E; simpl; [by rewrite H|].
  by destruct v.
Qed.

Lemma json_exact_scalar v :
  match v with VArr _ | VObj _ => False | _ => True end -> json_exact v.
Proof. by destruct v. Qed.

(** The request built for a bid that can be dereferenced. *)
Lemma buildBidRequest_data env bid br st :
  nullish bid = false -> nullish br = false ->
  nullish (member bid "params") = false ->
  exists req st' d,
    buildBidRequest env bid br st = (Ok req, st') /\
    originalBidRequest req = bid /\
    data req =
      let gdprConsent := member br "gdprConsent" in
      let uspConsent := member br "uspConsent" in
      let user : gmap string value :=
        {[ "coppa" := VNum (if truthy (cfg_coppa (cfg st)) then 1 else 0) ]} in
      let user :=
        if truthy gdprConsent && truthy (member gdprConsent "gdprApplies")
        then <["consent" := member gdprConsent "consentString"]>
               (<["gdpr" := VNum 1]> user)
        else user in
      let user :=
        if truthy uspConsent then <["usp" := uspConsent]> user else user in
      JSON_stringify (VObj (list_to_map
        [ ("id", member bid "bidId"); ("tmax", member br "timeout");
          ("placements", VArr [member (member bid "params") "placementId"]);
          ("test", VNum (if truthy (cfg_debug (cfg st)) then 1 else 0));
          ("device", VObj d); ("at", VNum 2); ("user", VObj user) ])).
Proof.
  intros Hbid Hbr Hp.
  unfold buildBidRequest, getUserId, generateUserId.
  unfold bind at 1, ret at 1. cbv beta iota.
  js_get Hbid. js_get Hbr. js_get Hbid. js_get Hp.
  unfold bind at 1, get_cfg at 1. cbv beta iota.
  change (split_dot "gdprConsent") with ["gdprConsent"].
  change (split_dot "uspConsent") with ["uspConsent"].
  rewrite !deepAccess_1 by discriminate.
  destruct (cfg_device (cfg st)) as [o|] eqn:Hdev.
  - destruct (getDevice_set env st o Hdev) as (d & Hd & _).
    rewrite (bind_ok _ _ _ _ _ Hd). cbv beta.
    unfold bind at 1, get_cfg at 1. cbv beta iota.
    eexists _, _, d. split; [reflexivity|]. split; reflexivity.
  - destruct (getDevice_unset env st Hdev) as (d & Hd).
    rewrite (bind_ok _ _ _ _ _ Hd). cbv beta.
    unfold bind at 1, get_cfg at 1. cbv beta iota.
    eexists _, _, d. split; [reflexivity|]. split; reflexivity.
Qed.

Lemma valid_bid_derefs bid st :
  (isBidRequestValid bid st).1 = Ok true ->
  nullish bid = false /\ nullish (member bid "params") = false /\
  truthy (member (member bid "params") "placementId") = true.
Proof.
  rewrite isBidRequestValid_value. intros [= H].
  apply andb_prop in H as [H _]. apply andb_prop in H as [H Hpid].
  apply andb_prop in H as [Hb Hp].
  by repeat split; try apply truthy_not_nullish.
Qed.

(** C4: for a valid bid request and an auction context, the body of the
    built request, once parsed, has id the bid's id, tmax the auction
    timeout, placements the one-element list of the placement id, test 1 or
    0 as the debug flag is set or not, at 2 and user.coppa 1 or 0 as the
    COPPA flag is set or not. The id, timeout and placement id are values
    that JSON carries unchanged (strings, numbers). *)
Theorem buildBidRequest_payload (env : Env) (bid br : value) (st : state) :
  (isBidRequestValid bid st).1 = Ok true ->
  nullish br = false ->
  json_exact (member bid "bidId") ->
  json_exact (member br "timeout") ->
  json_exact (member (member bid "params") "placementId") ->
  exists req st' body,
    buildBidRequest env bid br st = (Ok req, st') /\
    data req = Some body /\
    let payload := JSON_parse body in
    member payload "id" = member bid "bidId" /\
    member payload "tmax" = member br "timeout" /\
    member payload "placements" = VArr [member (member bid "params") "placementId"] /\
    member payload "test" = VNum (if truthy (cfg_debug (cfg st)) then 1 else 0) /\
    member payload "at" = VNum 2 /\
    member (member payload "user") "coppa"
      = VNum (if truthy (cfg_coppa (cfg st)) then 1 else 0).
Proof.
  intros Hvalid Hbr Eid Etmax Epid.
  destruct (valid_bid_derefs _ _ Hvalid) as (Hbid & Hp & Hpid).
  destruct (buildBidRequest_data env bid br st Hbid Hbr Hp)
    as (req & st' & d & Hrun & _ & Hdata).
  exists req, st'. eexists. split; [exact Hrun|]. split; [exact Hdata|].
  cbv zeta. rewrite !member_reparsed_obj.
  split_and!.
  - exact Eid.
  - exact Etmax.
  - apply json_exact_array1; [|exact Epid].
    intros E. by rewrite E in Hpid.
  - reflexivity.
  - reflexivity.
  - set (user := if truthy (member br "uspConsent") then _ else _).
    change (member (reparsed (VObj user)) "coppa"
            = VNum (if truthy (cfg_coppa (cfg st)) then 1 else 0)).
    unfold reparsed. change (JSON_stringify (VObj user))
      with (Some (JObj (omap JSON_stringify user))).
    cbv iota. rewrite member_reparsed_obj.
    assert (user !! "coppa"
            = Some (VNum (if truthy (cfg_coppa (cfg st)) then 1 else 0))) as ->.
    { subst user. destruct (truthy (member br "uspConsent")),
        (truthy (member br "gdprConsent")
         && truthy (member (member br "gdprConsent") "gdprApplies"));
        by rewrite ?lookup_insert_ne, lookup_singleton_eq by done. }
    done.
Qed.

Lemma buildBidRequest_payload_witness :
  exists req st' body,
    buildBidRequest Samples.env0 Samples.bid0 Samples.bidderRequest0 Samples.st0
      = (Ok req, st') /\
    data req = Some body /\
    member (JSON_parse body) "id" = VStr "bid-1" /\
    member (JSON_parse body) "tmax" = VNum 3000 /\
    member (JSON_parse body) "placements" = VArr [VStr "pl-7"] /\
    member (JSON_parse body) "test" = VNum 1 /\
    member (JSON_parse body) "at" = VNum 2 /\
    member (member (JSON_parse body) "user") "coppa" = VNum 0.
Proof.
  apply (buildBidRequest_payload Samples.env0 Samples.bid0
           Samples.bidderRequest0 Samples.st0); vm_compute; reflexivity.
Defined.

(** C5: in the parsed body of the built request, user.gdpr is 1 and
    user.consent is the supplied consent string when a GDPR context is
    present and applies; neither property exists when the GDPR context is
    absent (or does not apply); user.usp is the US-privacy string when a
    non-empty one is supplied and does not exist otherwise. *)
Theorem buildBidRequest_consent (env : Env) (bid br : value) (st : state) :
  (isBidRequestValid bid st).1 = Ok true ->
  nullish br = false ->
  let gdprConsent := member br "gdprConsent" in
  let uspConsent := member br "uspConsent" in
  exists req st' body user,
    buildBidRequest env bid br st = (Ok req, st') /\
    data req = Some body /\
    member (JSON_parse body) "user" = VObj user /\
    (truthy gdprConsent = true ->
     truthy (member gdprConsent "gdprApplies") = true ->
     json_exact (member gdprConsent "consentString") ->
     user !! "gdpr" = Some (VNum 1) /\
     member (VObj user) "consent" = member gdprConsent "consentString") /\
    (truthy gdprConsent = false \/
     truthy (member gdprConsent "gdprApplies") = false ->
     user !! "gdpr" = None /\ user !! "consent" = None) /\
    (forall s, uspConsent = VStr s -> s <> "" -> user !! "usp" = Some (VStr s)) /\
    (truthy uspConsent = false -> user !! "usp" = None).
Proof.
  intros Hvalid Hbr gdprConsent uspConsent.
  destruct (valid_bid_derefs _ _ Hvalid) as (Hbid & Hp & Hpid).
  destruct (buildBidRequest_data env bid br st Hbid Hbr Hp)
    as (req & st' & d & Hrun & _ & Hdata).
  cbv zeta in Hdata. fold gdprConsent uspConsent in Hdata.
  set (user := if truthy uspConsent then _ else _) in Hdata.
  exists req, st'. eexists. exists (JSON_parse <$> omap JSON_stringify user).
  split; [exact Hrun|]. split; [exact Hdata|].
  split; [by rewrite member_reparsed_obj|].
  assert (forall k, (JSON_parse <$> omap JSON_stringify user) !! k =
                    (user !! k) ≫= (fun v => JSON_parse <$> JSON_stringify v)) as L.
  { intros k. rewrite lookup_fmap, lookup_omap. by destruct (user !! k). }
  split_and!.
  - intros Hg Ha Hc.
    change (member (VObj ?o) ?k) with (default VUndef (o !! k)).
    rewrite !L. subst user.
    rewrite Hg, Ha. simpl andb. cbv iota.
    assert (forall u : gmap string value,
              (if truthy uspConsent then <["usp" := uspConsent]> u else u) !! "gdpr"
              = u !! "gdpr" /\
              (if truthy uspConsent then <["usp" := uspConsent]> u else u) !! "consent"
              = u !! "consent") as Husp.
    { intros u. destruct (truthy uspConsent); by rewrite ?lookup_insert_ne. }
    rewrite (proj1 (Husp _)), (proj2 (Husp _)).
    rewrite lookup_insert_ne, !lookup_insert_eq by done. split; [done|].
    simpl. unfold json_exact, reparsed in Hc.
    destruct (JSON_stringify (member gdprConsent "consentString")); exact Hc.
  - intros Hg. rewrite !L. subst user.
    assert (truthy gdprConsent && truthy (member gdprConsent "gdprApplies") = false)
      as -> by (destruct Hg as [-> | ->]; by rewrite ?andb_false_r).
    destruct (truthy uspConsent);
      by rewrite ?lookup_insert_ne, !lookup_singleton_ne by done.
  - intros s Hs Hne. rewrite L. subst user. rewrite Hs. simpl truthy.
    apply String.eqb_neq in Hne. rewrite Hne. simpl negb. cbv iota.
    by rewrite lookup_insert_eq.
  - intros Hu. rewrite L. subst user. rewrite Hu.
    destruct (truthy gdprConsent && truthy (member gdprConsent "gdprApplies"));
      by rewrite ?lookup_insert_ne, lookup_singleton_ne by done.
Qed.

Lemma buildBidRequest_consent_witness :
  (exists req st' body user,
     buildBidRequest Samples.env0 Samples.bid0 Samples.bidderRequest0 Samples.st0
       = (Ok req, st') /\
     data req = Some body /\
     member (JSON_parse body) "user" = VObj user /\
     user !! "gdpr" = Some (VNum 1) /\
     member (VObj user) "consent" = VStr "CONSENT" /\
     user !! "usp" = Some (VStr "1YNN")) /\
  (exists req st' body user,
     buildBidRequest Samples.env0 Samples.bid0 Samples.bidderRequest1 Samples.st0
       = (Ok req, st') /\
     data req = Some body /\
     member (JSON_parse body) "user" = VObj user /\
     user !! "gdpr" = None /\ user !! "consent" = None /\ user !! "usp" = None).
Proof.
  split.
  - destruct (buildBidRequest_consent Samples.env0 Samples.bid0
                Samples.bidderRequest0 Samples.st0)
      as (req & st' & body & user & Hrun & Hdata & Huser & Hg & _ & Hu & _);
      try (vm_compute; reflexivity).
    exists req, st', body, user.
    split; [exact Hrun|]. split; [exact Hdata|]. split; [exact Huser|].
    destruct Hg as [Hg Hc]; try (vm_compute; reflexivity).
    split; [exact Hg|]. split; [exact Hc|].
    apply Hu; [vm_compute; reflexivity|discriminate].
  - destruct (buildBidRequest_consent Samples.env0 Samples.bid0
                Samples.bidderRequest1 Samples.st0)
      as (req & st' & body & user & Hrun & Hdata & Huser & _ & Hg & _ & Hu);
      try (vm_compute; reflexivity).
    exists req, st', body, user.
    split; [exact Hrun|]. split; [exact Hdata|]. split; [exact Huser|].
    destruct Hg as [Hg Hc]; [left; vm_compute; reflexivity|].
    split; [exact Hg|]. split; [exact Hc|].
    apply Hu. vm_compute. reflexivity.
Defined.

(** ** Further properties of the adapter *)

(** *** Language *)

Lemma before_dash_no_dash s :
  "-"%char ∉ String.list_ascii_of_string (before_dash s).
Proof.
  induction s as [|c r IH]; simpl; [apply not_elem_of_nil|].
  destruct (Ascii.eqb c "-") eqn:E; simpl; [apply not_elem_of_nil|].
  apply Ascii.eqb_neq in E. apply not_elem_of_cons. split; [congruence|done].
Qed.

Lemma before_dash_region a b :
  "-"%char ∉ String.list_ascii_of_string a ->
  before_dash (a +:+ String "-" b) = a.
Proof.
  induction a as [|c r IH]; simpl; intros H; [done|].
  apply not_elem_of_cons in H as [Hc Hr].
  destruct (Ascii.eqb c "-") eqn:E.
  - apply Ascii.eqb_eq in E. congruence.
  - f_equal. by apply IH.
Qed.

(** X1: the language that [getLanguage] returns never contains a dash. *)
Theorem getLanguage_no_dash (env : Env) :
  "-"%char ∉ String.list_ascii_of_string (getLanguage env).
Proof.
  unfold getLanguage.
  assert ("-"%char ∉ String.list_ascii_of_string "en") as Hen.
  { apply (before_dash_no_dash "en"). }
  destruct (str_or _ _) as [s|]; [|exact Hen].
  destruct (String.eqb s ""); [exact Hen|].
  apply before_dash_no_dash.
Qed.

(** X2: when the first entry of navigator.languages is a locale written
    language-REGION, [getLanguage] returns the language part, whatever
    navigator.language and navigator.userLanguage say. *)
Theorem getLanguage_strips_region (env : Env) (a b : string) (rest : list string) :
  navigator_languages env = Some ((a +:+ String "-" b) :: rest) ->
  "-"%char ∉ String.list_ascii_of_string a ->
  getLanguage env = a.
Proof.
  intros Hl Hd. unfold getLanguage. rewrite Hl. simpl.
  assert (String.eqb (a +:+ String "-" b) "" = false) as E.
  { apply String.eqb_neq. by destruct a. }
  rewrite E. unfold str_or. rewrite !E.
  by apply before_dash_region.
Qed.

Lemma getLanguage_strips_region_witness :
  getLanguage Samples.env0 = "en".
Proof.
  apply (getLanguage_strips_region Samples.env0 "en" "US" ["fr"]).
  - reflexivity.
  - apply (before_dash_no_dash "en").
Defined.

(** X3: only the first entry of navigator.languages is looked at. When it
    is missing or empty the result comes from navigator.language, and when
    that is missing or empty too and there is no navigator.userLanguage,
    the result is the default "en", later entries of the list
    notwithstanding. *)
Theorem getLanguage_fallback (env : Env) :
  (navigator_languages env ≫= head = None \/
   navigator_languages env ≫= head = Some "") ->
  (forall s, navigator_language env = Some s -> s <> "" ->
     getLanguage env = before_dash s) /\
  ((navigator_language env = None \/ navigator_language env = Some "") ->
   (navigator_userLanguage env = None \/ navigator_userLanguage env = Some "") ->
   getLanguage env = "en").
Proof.
  intros Hl. unfold getLanguage.
  assert (forall x, str_or (match navigator_languages env with
                            | Some l => head l | None => None end) x = x) as E.
  { intros x. destruct (navigator_languages env) as [l|]; simpl in *;
      destruct Hl as [Hl|Hl]; rewrite ?Hl; done. }
  rewrite E. split.
  - intros s Hs Hne. rewrite Hs. apply String.eqb_neq in Hne.
    unfold str_or. by rewrite Hne, Hne.
  - intros [-> | ->] [-> | ->]; done.
Qed.

Lemma getLanguage_fallback_witness :
  getLanguage MoreSamples.env1 = "fr" /\ getLanguage MoreSamples.env2 = "en".
Proof.
  split.
  - apply (proj1 (getLanguage_fallback MoreSamples.env1 (or_intror eq_refl)) "fr-CA").
    + reflexivity.
    + discriminate.
  - apply (proj2 (getLanguage_fallback MoreSamples.env2 (or_intror eq_refl))).
    + right. reflexivity.
    + left. reflexivity.
Defined.

(** *** Device *)

(** Reads a property through a chain of assignments to known names. *)
Ltac map_lookup :=
  repeat first [rewrite lookup_insert_eq | rewrite lookup_insert_ne by done].

Lemma js_or_idem a b : js_or (js_or a b) b = js_or a b.
Proof. unfold js_or. destruct (truthy a) eqn:E; [by rewrite E|]. by destruct (truthy b). Qed.

(** The run of [getDevice], with the state it leaves. *)
Lemma getDevice_run env st :
  exists d, getDevice env st = (Ok d, with_device st d).
Proof.
  unfold getDevice, get_cfg, bind, assign, ret, set_device, with_device.
  destruct (cfg_device (cfg st)) as [o|]; simpl; by eexists.
Qed.

(** X4: the object that [getDevice] returns has all five properties. For
    w, h, ua and language a truthy value of the configured override wins
    and anything else is replaced by the screen width and height, the user
    agent and the browser language; dnt is always a number, the override's
    when that is a number and otherwise 1 or 0 after the do-not-track
    signal. Every other property of the override is returned as it is. *)
Theorem getDevice_fields (env : Env) (st : state) :
  let o := default ∅ (cfg_device (cfg st)) in
  exists d st',
    getDevice env st = (Ok d, st') /\
    d !! "w" = Some (js_or (member (VObj o) "w") (VNum (screen_width env))) /\
    d !! "h" = Some (js_or (member (VObj o) "h") (VNum (screen_height env))) /\
    d !! "ua" = Some (js_or (member (VObj o) "ua") (VStr (navigator_userAgent env))) /\
    d !! "language" = Some (js_or (member (VObj o) "language") (VStr (getLanguage env))) /\
    d !! "dnt" = Some (if is_number (member (VObj o) "dnt")
                       then member (VObj o) "dnt"
                       else VNum (if getDNT env then 1 else 0)) /\
    is_number (member (VObj d) "dnt") = true /\
    (forall k, k ∉ device_fields -> d !! k = o !! k).
Proof.
  intros o. unfold getDevice, get_cfg, bind, assign, ret, set_device.
  fold o. destruct (bool_decide _); simpl; eexists _, _;
    (split; [reflexivity|]);
    map_lookup; split_and!; try done.
  all: try (by destruct (o !! "dnt") as [[]|]).
  all: intros k Hk; unfold device_fields in Hk;
    rewrite !lookup_insert_ne; [done|..]; intros <-; apply Hk; set_solver.
Qed.

Lemma getDevice_again env st st' d :
  getDevice env st = (Ok d, st') ->
  getDevice env st' = (Ok d, st').
Proof.
  destruct (cfg_device (cfg st)) as [o|] eqn:Hdev.
  - unfold getDevice at 1, get_cfg, bind, assign, ret, set_device.
    rewrite Hdev. simpl. intros [= <- <-].
    set (w := js_or (default VUndef (o !! "w")) (VNum (screen_width env))).
    set (h := js_or _ (VNum (screen_height env))).
    set (ua := js_or _ (VStr (navigator_userAgent env))).
    set (la := js_or _ (VStr (getLanguage env))).
    set (dnt := if is_number _ then _ else _).
    set (D := <["dnt" := dnt]> _).
    assert (D !! "w" = Some w) as Hw by (subst D; by map_lookup).
    assert (D !! "h" = Some h) as Hh by (subst D; by map_lookup).
    assert (D !! "ua" = Some ua) as Hua by (subst D; by map_lookup).
    assert (D !! "language" = Some la) as Hla by (subst D; by map_lookup).
    assert (D !! "dnt" = Some dnt) as Hdnt by (subst D; by map_lookup).
    assert (is_number dnt = true) as Hnum.
    { subst dnt. by destruct (is_number _) eqn:E. }
    clearbody D.
    unfold getDevice, get_cfg, bind, assign, ret, set_device. simpl.
    rewrite Hw. simpl. subst w. rewrite js_or_idem. rewrite (insert_id D "w") by done.
    rewrite Hh. simpl. subst h. rewrite js_or_idem. rewrite (insert_id D "h") by done.
    rewrite Hua. simpl. subst ua. rewrite js_or_idem. rewrite (insert_id D "ua") by done.
    rewrite Hla. simpl. subst la. rewrite js_or_idem. rewrite (insert_id D "language") by done.
    rewrite Hdnt. simpl. rewrite Hnum. rewrite (insert_id D "dnt") by done.
    done.
  - intros H. destruct (getDevice_run env st) as [d0 Hd0].
    unfold with_device in Hd0. rewrite Hdev in Hd0.
    rewrite Hd0 in H. injection H as <- <-. exact Hd0.
Qed.

(** X5: [getDevice] reaches a fixed point at once: called again in the
    state it has left, it returns the same object and changes nothing
    more. *)
Theorem getDevice_idempotent (env : Env) (st st' : state) (d : gmap string value) :
  getDevice env st = (Ok d, st') ->
  getDevice env st' = (Ok d, st').
Proof. apply getDevice_again. Qed.

Lemma getDevice_idempotent_witness :
  exists d st',
    getDevice Samples.env0 Samples.st2 = (Ok d, st') /\
    getDevice Samples.env0 st' = (Ok d, st').
Proof.
  destruct (getDevice_run Samples.env0 Samples.st2) as [d Hd].
  exists d, (with_device Samples.st2 d). split; [exact Hd|].
  apply (getDevice_idempotent Samples.env0 Samples.st2). exact Hd.
Defined.

(** *** One request *)

Lemma with_device_cfg st d :
  cfg_debug (cfg (with_device st d)) = cfg_debug (cfg st) /\
  cfg_coppa (cfg (with_device st d)) = cfg_coppa (cfg st) /\
  log (with_device st d) = log st.
Proof. unfold with_device. by destruct (cfg_device (cfg st)). Qed.

(** The request built for a bid whose members can be read, and the state
    left, which is the one [getDevice] leaves. *)
Lemma buildBidRequest_run env bid br st :
  derefs bid br ->
  exists d,
    getDevice env st = (Ok d, with_device st d) /\
    buildBidRequest env bid br st =
      (Ok {| method := "POST";
             url := "https://srv.freedomadnetwork.com/pb/req";
             data :=
               (let gdprConsent := member br "gdprConsent" in
                let uspConsent := member br "uspConsent" in
                let user : gmap string value :=
                  {[ "coppa" := VNum (if truthy (cfg_coppa (cfg st)) then 1 else 0) ]} in
                let user :=
                  if truthy gdprConsent && truthy (member gdprConsent "gdprApplies")
                  then <["consent" := member gdprConsent "consentString"]>
                         (<["gdpr" := VNum 1]> user)
                  else user in
                let user :=
                  if truthy uspConsent then <["usp" := uspConsent]> user else user in
                JSON_stringify (VObj (list_to_map
                  [ ("id", member bid "bidId"); ("tmax", member br "timeout");
                    ("placements", VArr [member (member bid "params") "placementId"]);
                    ("test", VNum (if truthy (cfg_debug (cfg st)) then 1 else 0));
                    ("device", VObj d); ("at", VNum 2); ("user", VObj user) ])));
             options :=
               {| contentType := "application/json";
                  withCredentials := false;
                  customHeaders :=
                    <["Authorization" :=
                        "Bearer " +:+ MD5.MD5 (navigator_userAgent env)]>
                      {[ "Accept-Language" := "en;q=10" ]} |};
             originalBidRequest := bid |},
       with_device st d).
Proof.
  intros (Hbid & Hbr & Hp).
  destruct (getDevice_run env st) as [d Hd]. exists d. split; [exact Hd|].
  unfold buildBidRequest, getUserId, generateUserId.
  unfold bind at 1, ret at 1. cbv beta iota.
  js_get Hbid. js_get Hbr. js_get Hbid. js_get Hp.
  unfold bind at 1, get_cfg at 1. cbv beta iota.
  change (split_dot "gdprConsent") with ["gdprConsent"].
  change (split_dot "uspConsent") with ["uspConsent"].
  rewrite !deepAccess_1 by discriminate.
  rewrite (bind_ok _ _ _ _ _ Hd). cbv beta.
  unfold bind at 1, get_cfg at 1. cbv beta iota.
  destruct (with_device_cfg st d) as (_ & -> & _).
  reflexivity.
Qed.

(** The three ways in which [buildBidRequest] throws. *)
Lemma buildBidRequest_throws env bid br st :
  ~ derefs bid br ->
  exists e, buildBidRequest env bid br st = (Throw e, st).
Proof.
  intros H. unfold buildBidRequest, getUserId, generateUserId.
  unfold bind at 1, ret at 1. cbv beta iota.
  destruct (nullish bid) eqn:Hbid.
  { unfold bind, get_prop. rewrite Hbid. by eexists. }
  js_get Hbid.
  destruct (nullish br) eqn:Hbr.
  { unfold bind, get_prop. rewrite Hbr. by eexists. }
  js_get Hbr. js_get Hbid.
  destruct (nullish (member bid "params")) eqn:Hp.
  { unfold bind, get_prop. rewrite Hp. by eexists. }
  destruct H. done.
Qed.

(** X6: [buildBidRequest] returns a request exactly when the bid, the
    auction context and bid.params are not null or undefined; otherwise it
    throws before it has touched the configuration or the trace. *)
Theorem buildBidRequest_returns (env : Env) (bid br : value) (st : state) :
  ((exists req st', buildBidRequest env bid br st = (Ok req, st')) <->
   derefs bid br) /\
  (~ derefs bid br ->
   exists e, buildBidRequest env bid br st = (Throw e, st)).
Proof.
  split; [split|].
  - intros (req & st' & H).
    destruct (nullish bid) eqn:Hbid, (nullish br) eqn:Hbr,
      (nullish (member bid "params")) eqn:Hp; try done.
    all: destruct (buildBidRequest_throws env bid br st) as [e He];
      [intros (? & ? & ?); congruence | congruence].
  - intros H. destruct (buildBidRequest_run env bid br st H) as (d & _ & Hrun).
    eauto.
  - apply buildBidRequest_throws.
Qed.

Lemma buildBidRequest_returns_witness :
  exists e,
    buildBidRequest Samples.env0 MoreSamples.bid_no_params Samples.bidderRequest0
      Samples.st1 = (Throw e, Samples.st1).
Proof.
  apply (buildBidRequest_returns Samples.env0 MoreSamples.bid_no_params
           Samples.bidderRequest0 Samples.st1).
  intros (_ & _ & H). vm_compute in H. discriminate.
Defined.

(** X7: every request that [buildBidRequest] builds is a POST to
    https://srv.freedomadnetwork.com/pb/req with a JSON content type and
    without credentials; its Authorization header is "Bearer " followed by
    the value of [generateUserId], so it depends on the user agent alone and
    not on the bid; it carries the bid it was built from. *)
Theorem buildBidRequest_descriptor (env : Env) (bid br : value) (st : state) :
  derefs bid br ->
  exists req st' h,
    buildBidRequest env bid br st = (Ok req, st') /\
    generateUserId env st = (Ok h, st) /\
    method req = "POST" /\
    url req = "https://srv.freedomadnetwork.com/pb/req" /\
    contentType (options req) = "application/json" /\
    withCredentials (options req) = false /\
    customHeaders (options req) =
      {[ "Accept-Language" := "en;q=10"; "Authorization" := "Bearer " +:+ h ]} /\
    originalBidRequest req = bid.
Proof.
  intros H. destruct (buildBidRequest_run env bid br st H) as (d & _ & Hrun).
  eexists _, _, _. split; [exact Hrun|]. split; [reflexivity|].
  split_and!; reflexivity.
Qed.

Lemma buildBidRequest_descriptor_witness :
  exists req st' h,
    buildBidRequest Samples.env0 Samples.bid0 Samples.bidderRequest0 Samples.st0
      = (Ok req, st') /\
    generateUserId Samples.env0 Samples.st0 = (Ok h, Samples.st0) /\
    method req = "POST" /\
    url req = "https://srv.freedomadnetwork.com/pb/req" /\
    contentType (options req) = "application/json" /\
    withCredentials (options req) = false /\
    customHeaders (options req) =
      {[ "Accept-Language" := "en;q=10"; "Authorization" := "Bearer " +:+ h ]} /\
    originalBidRequest req = Samples.bid0.
Proof.
  apply (buildBidRequest_descriptor Samples.env0 Samples.bid0
           Samples.bidderRequest0 Samples.st0).
  repeat split.
Defined.

(** X8: building a request does to the state exactly what [getDevice]
    does, and the device in the parsed body is the object [getDevice]
    returned, as JSON carries it. *)
Theorem buildBidRequest_sends_device (env : Env) (bid br : value) (st : state) :
  derefs bid br ->
  exists req st' d body,
    buildBidRequest env bid br st = (Ok req, st') /\
    getDevice env st = (Ok d, st') /\
    data req = Some body /\
    member (JSON_parse body) "device" = reparsed (VObj d).
Proof.
  intros H. destruct (buildBidRequest_run env bid br st H) as (d & Hd & Hrun).
  eexists _, _, d, _. split; [exact Hrun|]. split; [exact Hd|].
  split; [reflexivity|]. by rewrite member_reparsed_obj.
Qed.

Lemma buildBidRequest_sends_device_witness :
  exists req st' d body,
    buildBidRequest Samples.env0 Samples.bid0 Samples.bidderRequest0 Samples.st2
      = (Ok req, st') /\
    getDevice Samples.env0 Samples.st2 = (Ok d, st') /\
    data req = Some body /\
    member (JSON_parse body) "device" = reparsed (VObj d).
Proof.
  apply (buildBidRequest_sends_device Samples.env0 Samples.bid0
           Samples.bidderRequest0 Samples.st2).
  repeat split.
Defined.

(** X9: a request is reproducible. Built again for the same bid in the
    state the first call has left, the request is the same and the state
    does not change any more. *)
Theorem buildBidRequest_repeatable (env : Env) (bid br : value) (st st' : state)
    (req : Request) :
  buildBidRequest env bid br st = (Ok req, st') ->
  buildBidRequest env bid br st' = (Ok req, st').
Proof.
  intros H.
  assert (derefs bid br) as Hd.
  { destruct (nullish bid) eqn:Hbid, (nullish br) eqn:Hbr,
      (nullish (member bid "params")) eqn:Hp; try done.
    all: destruct (buildBidRequest_throws env bid br st) as [e He];
      [intros (? & ? & ?); congruence | congruence]. }
  destruct (buildBidRequest_run env bid br st Hd) as (d & Hdev & Hrun).
  rewrite Hrun in H. injection H as <- <-.
  destruct (buildBidRequest_run env bid br (with_device st d) Hd)
    as (d2 & Hdev2 & Hrun2).
  pose proof (getDevice_again _ _ _ _ Hdev) as Hagain.
  rewrite Hagain in Hdev2. injection Hdev2 as <- Hst.
  rewrite <- Hst in Hrun2. rewrite Hrun2.
  destruct (with_device_cfg st d) as (-> & -> & _). done.
Qed.

Lemma buildBidRequest_repeatable_witness :
  exists req st',
    buildBidRequest Samples.env0 Samples.bid0 Samples.bidderRequest0 Samples.st2
      = (Ok req, st') /\
    buildBidRequest Samples.env0 Samples.bid0 Samples.bidderRequest0 st'
      = (Ok req, st').
Proof.
  destruct (buildBidRequest_run Samples.env0 Samples.bid0 Samples.bidderRequest0
              Samples.st2) as (d & _ & Hrun); [repeat split|].
  eexists _, _. split; [exact Hrun|].
  apply (buildBidRequest_repeatable Samples.env0 Samples.bid0
           Samples.bidderRequest0 Samples.st2). exact Hrun.
Defined.

(** *** A batch of requests *)

Lemma derefs_dec bid br : derefs bid br \/ ~ derefs bid br.
Proof.
  unfold derefs.
  destruct (nullish bid), (nullish br), (nullish (member bid "params"));
    first [by left | right; intros (? & ? & ?); congruence].
Qed.

Lemma mapM_buildBidRequest_ok env br bids : forall st,
  Forall (fun bid => derefs bid br) bids ->
  exists reqs st',
    mapM (fun bid => buildBidRequest env bid br) bids st = (Ok reqs, st') /\
    map originalBidRequest reqs = bids.
Proof.
  induction bids as [|bid bids IH]; intros st H; simpl.
  - by exists [], st.
  - inversion H as [|? ? Hbid Hbids]; subst.
    destruct (buildBidRequest_run env bid br st Hbid) as (d & _ & Hrun).
    rewrite (bind_ok _ _ _ _ _ Hrun).
    destruct (IH (with_device st d) Hbids) as (reqs & st' & Hreqs & Hmap).
    rewrite (bind_ok _ _ _ _ _ Hreqs).
    eexists _, _. split; [reflexivity|]. simpl. by rewrite Hmap.
Qed.

(** X10: for bid requests that [isBidRequestValid] accepts and an auction
    context that is not null or undefined, [buildRequests] does not throw
    and returns one request per bid, in the order of the bids, each
    carrying its bid. *)
Theorem buildRequests_valid (env : Env) (bids : list value) (br : value) (st : state) :
  nullish br = false ->
  Forall (fun bid => (isBidRequestValid bid st).1 = Ok true) bids ->
  exists reqs st',
    buildRequests env (VArr bids) br st = (Ok reqs, st') /\
    map originalBidRequest reqs = bids.
Proof.
  intros Hbr H. apply mapM_buildBidRequest_ok.
  eapply Forall_impl; [exact H|]. intros bid Hv.
  destruct (valid_bid_derefs _ _ Hv) as (? & ? & _). by repeat split.
Qed.

Lemma buildRequests_valid_witness :
  exists reqs st',
    buildRequests Samples.env0 (VArr [Samples.bid0; Samples.bid0])
      Samples.bidderRequest0 Samples.st1 = (Ok reqs, st') /\
    map originalBidRequest reqs = [Samples.bid0; Samples.bid0].
Proof.
  apply (buildRequests_valid Samples.env0 [Samples.bid0; Samples.bid0]
           Samples.bidderRequest0 Samples.st1).
  - reflexivity.
  - repeat constructor; vm_compute; reflexivity.
Defined.

Lemma mapM_buildBidRequest_throws env br bids : forall st,
  Exists (fun bid => ~ derefs bid br) bids ->
  exists e st',
    mapM (fun bid => buildBidRequest env bid br) bids st = (Throw e, st').
Proof.
  induction bids as [|bid bids IH]; intros st H; simpl.
  - inversion H.
  - destruct (derefs_dec bid br) as [Hd|Hd].
    + destruct (buildBidRequest_run env bid br st Hd) as (d & _ & Hrun).
      rewrite (bind_ok _ _ _ _ _ Hrun).
      inversion H as [? ? Hbad|? ? Hbad]; subst; [done|].
      destruct (IH (with_device st d) Hbad) as (e & st' & Hthrow).
      rewrite (bind_throw _ _ _ _ _ Hthrow). eauto.
    + destruct (buildBidRequest_throws env bid br st Hd) as [e He].
      rewrite (bind_throw _ _ _ _ _ He). eauto.
Qed.

(** X11: a batch is all or nothing. One bid request that is null or
    undefined, or whose params are, makes [buildRequests] throw, and the
    requests of the other bids are lost; so does an auction context that is
    null or undefined as soon as there is one bid. *)
Theorem buildRequests_all_or_nothing (env : Env) (bids : list value) (br : value)
    (st : state) :
  Exists (fun bid => ~ derefs bid br) bids ->
  exists e st', buildRequests env (VArr bids) br st = (Throw e, st').
Proof. apply mapM_buildBidRequest_throws. Qed.

Lemma buildRequests_all_or_nothing_witness :
  exists e st',
    buildRequests Samples.env0 (VArr [Samples.bid0; MoreSamples.bid_no_params])
      Samples.bidderRequest0 Samples.st0 = (Throw e, st').
Proof.
  apply (buildRequests_all_or_nothing Samples.env0
           [Samples.bid0; MoreSamples.bid_no_params] Samples.bidderRequest0
           Samples.st0).
  apply Exists_cons_tl, Exists_cons_hd.
  intros (_ & _ & H). vm_compute in H. discriminate.
Defined.

Lemma mapM_buildBidRequest_fixed env br d bids : forall st,
  getDevice env st = (Ok d, st) ->
  Forall (fun bid => derefs bid br) bids ->
  exists reqs,
    mapM (fun bid => buildBidRequest env bid br) bids st = (Ok reqs, st) /\
    Forall (fun req => exists body,
              data req = Some body /\
              member (JSON_parse body) "device" = reparsed (VObj d)) reqs.
Proof.
  induction bids as [|bid bids IH]; intros st Hfix H; simpl.
  - exists []. split; [done|constructor].
  - inversion H as [|? ? Hbid Hbids]; subst.
    destruct (buildBidRequest_run env bid br st Hbid) as (d' & Hd' & Hrun).
    rewrite Hfix in Hd'. injection Hd' as <- Hst. rewrite <- Hst in Hrun.
    rewrite (bind_ok _ _ _ _ _ Hrun).
    destruct (IH st Hfix Hbids) as (reqs & Hreqs & Hall).
    rewrite (bind_ok _ _ _ _ _ Hreqs).
    eexists. split; [reflexivity|]. constructor; [|done].
    eexists. split; [reflexivity|]. by rewrite member_reparsed_obj.
Qed.

(** X12: all the requests of one batch send the same device: the first
    call of [getDevice] settles it, also when it fills the configured
    override, and the later ones return the same object. *)
Theorem buildRequests_same_device (env : Env) (bids : list value) (br : value)
    (st : state) :
  Forall (fun bid => derefs bid br) bids ->
  exists reqs st' d,
    buildRequests env (VArr bids) br st = (Ok reqs, st') /\
    Forall (fun req => exists body,
              data req = Some body /\
              member (JSON_parse body) "device" = reparsed (VObj d)) reqs.
Proof.
  intros H. simpl. destruct bids as [|bid bids].
  - exists [], st, ∅. split; [done|constructor].
  - inversion H as [|? ? Hbid Hbids]; subst. simpl.
    destruct (buildBidRequest_run env bid br st Hbid) as (d & Hd & Hrun).
    rewrite (bind_ok _ _ _ _ _ Hrun).
    pose proof (getDevice_again _ _ _ _ Hd) as Hfix.
    destruct (mapM_buildBidRequest_fixed env br d bids _ Hfix Hbids)
      as (reqs & Hreqs & Hall).
    rewrite (bind_ok _ _ _ _ _ Hreqs).
    eexists _, _, d. split; [reflexivity|]. constructor; [|done].
    eexists. split; [reflexivity|]. by rewrite member_reparsed_obj.
Qed.

Lemma buildRequests_same_device_witness :
  exists reqs st' d,
    buildRequests Samples.env0 (VArr [Samples.bid0; Samples.bid0])
      Samples.bidderRequest1 Samples.st2 = (Ok reqs, st') /\
    Forall (fun req => exists body,
              data req = Some body /\
              member (JSON_parse body) "device" = reparsed (VObj d)) reqs.
Proof.
  apply (buildRequests_same_device Samples.env0 [Samples.bid0; Samples.bid0]
           Samples.bidderRequest1 Samples.st2).
  repeat constructor.
Defined.

(** *** Validity check *)

(** X13: [isBidRequestValid] never throws and never changes the
    configuration. It logs one warning when the bid, its params or its
    placementId is missing, naming what is missing, and logs nothing
    otherwise: a bid rejected for its missing banner declaration is
    rejected silently. *)
Theorem isBidRequestValid_warnings (bid : value) (st : state) :
  exists b st',
    isBidRequestValid bid st = (Ok b, st') /\
    cfg st' = cfg st /\
    (truthy bid = false ->
     log st' = log st ++
       [LogWarn [VStr "freedomadnetwork"; VStr "Invalid bid"; bid]]) /\
    (truthy bid = true -> truthy (member bid "params") = false ->
     log st' = log st ++
       [LogWarn [VStr "freedomadnetwork"; VStr "bid.params is required"]]) /\
    (truthy (member bid "params") = true ->
     truthy (member (member bid "params") "placementId") = false ->
     log st' = log st ++
       [LogWarn [VStr "freedomadnetwork";
                 VStr "bid.params.placementId is required"]]) /\
    (truthy (member (member bid "params") "placementId") = true -> st' = st).
Proof.
  unfold isBidRequestValid.
  destruct (truthy bid) eqn:Hb; cbn [negb].
  2: { eexists _, _. split; [reflexivity|]. split_and!; try done.
       - intros H. by destruct bid.
       - intros H.
         destruct (member_truthy_obj (member bid "params") "placementId"
                     ltac:(discriminate) H) as [p Hp].
         by destruct bid. }
  js_get (truthy_not_nullish _ Hb).
  destruct (truthy (member bid "params")) eqn:Hp; cbn [negb].
  2: { eexists _, _. split; [reflexivity|]. split_and!; try done.
       intros H.
       destruct (member_truthy_obj (member bid "params") "placementId"
                   ltac:(discriminate) H) as [p Hp'].
       by rewrite Hp' in Hp. }
  js_get (truthy_not_nullish _ Hp).
  destruct (truthy (member (member bid "params") "placementId")) eqn:Hpid; cbn [negb].
  2: { eexists _, _. split; [reflexivity|]. by split_and!. }
  destruct (is_undefined _); eexists _, _; (split; [reflexivity|]); by split_and!.
Qed.

Lemma isBidRequestValid_warnings_witness :
  exists b st',
    isBidRequestValid (VObj {[ "params" := VObj {[ "placementId" := VStr "pl-7" ]} ]})
      Samples.st0 = (Ok b, st') /\
    st' = Samples.st0.
Proof.
  destruct (isBidRequestValid_warnings
              (VObj {[ "params" := VObj {[ "placementId" := VStr "pl-7" ]} ]})
              Samples.st0) as (b & st' & Hrun & _ & _ & _ & _ & Hsilent).
  exists b, st'. split; [exact Hrun|]. apply Hsilent. vm_compute. reflexivity.
Defined.

(** *** Interpreting a response, further *)

Lemma stateless_ret {A} (a : A) : stateless (ret a).
Proof. by intros st. Qed.

Lemma stateless_throw {A} e : stateless (@throw A e).
Proof. by intros st. Qed.

Lemma stateless_get_prop v k : stateless (get_prop v k).
Proof. intros st. apply get_prop_state. Qed.

Lemma stateless_bind {A B} (m : M A) (k : A -> M B) :
  stateless m -> (forall a, stateless (k a)) -> stateless (bind m k).
Proof.
  intros Hm Hk st. unfold bind. specialize (Hm st).
  destruct (m st) as [[a|e|] st1]; simpl in *; subst; [apply Hk|done|done].
Qed.

Lemma stateless_mapM {A B} (f : A -> M B) l :
  (forall x, stateless (f x)) -> stateless (mapM f l).
Proof.
  intros Hf. induction l as [|x l IH]; simpl; [apply stateless_ret|].
  apply stateless_bind; [apply Hf|]. intros y.
  apply stateless_bind; [apply IH|]. intros ys. apply stateless_ret.
Qed.

Lemma stateless_bidResponse e : stateless (bidResponse e).
Proof.
  unfold bidResponse.
  repeat first
    [ apply stateless_ret
    | apply stateless_get_prop
    | apply stateless_bind; [|intros ?] ].
Qed.

(** X14: [interpretResponse] has no effect whatever it is given and
    however it ends: no network call, no pixel, nothing logged, the
    configuration untouched. *)
Theorem interpretResponse_stateless (resp br : value) (st : state) :
  (interpretResponse resp br st).2 = st.
Proof.
  revert st. change (stateless (interpretResponse resp br)).
  unfold interpretResponse.
  apply stateless_bind; [apply stateless_get_prop|]. intros body.
  destruct (negb (truthy body)); [apply stateless_ret|].
  destruct body; try apply stateless_throw.
  apply stateless_mapM, stateless_bidResponse.
Qed.

(** X15: [interpretResponse] throws a TypeError when the server response
    itself is null or undefined, and when its body is truthy without being
    an array, such as an object or a text: the body is iterated with
    forEach unchecked. *)
Theorem interpretResponse_not_an_array (resp br : value) (st : state) :
  (nullish resp = true ->
   exists e, interpretResponse resp br st = (Throw e, st)) /\
  (nullish resp = false ->
   truthy (member resp "body") = true ->
   (forall l, member resp "body" <> VArr l) ->
   interpretResponse resp br st =
     (Throw (TypeError "serverBody.forEach is not a function"), st)).
Proof.
  split.
  - intros H. unfold interpretResponse, bind, get_prop. rewrite H. by eexists.
  - intros Hr Hb Harr. unfold interpretResponse. js_get Hr. rewrite Hb.
    cbn [negb]. destruct (member resp "body") as [| | | | |l|]; try done.
    by destruct (Harr l).
Qed.

Lemma interpretResponse_not_an_array_witness :
  interpretResponse (VObj {[ "body" := VObj {[ "error" := VStr "no fill" ]} ]})
    VUndef Samples.st0 =
  (Throw (TypeError "serverBody.forEach is not a function"), Samples.st0).
Proof.
  apply (proj2 (interpretResponse_not_an_array
                  (VObj {[ "body" := VObj {[ "error" := VStr "no fill" ]} ]})
                  VUndef Samples.st0)).
  - reflexivity.
  - vm_compute. reflexivity.
  - intros l H. vm_compute in H. discriminate.
Defined.

Lemma bidResponse_renamed e st :
  nullish e = false -> exists b, bidResponse e st = (Ok b, st) /\ renamed e b.
Proof.
  intros H. unfold bidResponse, bind, get_prop. rewrite H. simpl.
  eexists. split; [reflexivity|]. unfold renamed.
  split_and!; try reflexivity.
  eexists _, _. split; [reflexivity|].
  split_and!; [|reflexivity|].
  - unfold bid_keys. simpl. rewrite !dom_insert_L, dom_empty_L. set_solver.
  - unfold meta_keys. simpl. rewrite !dom_insert_L, dom_empty_L. set_solver.
Qed.

(** X16: every interpreted bid is its entry under a fixed renaming:
    requestId from id, ad from payload, creativeId from crid,
    meta.mediaType from mediaType, meta.advertiserDomains from domains, and
    bidid, impid, userId, cpm, currency, width, height, ttl, netRevenue and
    trackers under their own names. A bid always has these fourteen
    properties and its meta these two; what the entry lacks is undefined in
    the bid. *)
Theorem interpretResponse_renames (resp br : value) (st : state) (entries : list value) :
  nullish resp = false ->
  member resp "body" = VArr entries ->
  Forall (fun e => nullish e = false) entries ->
  exists bids,
    interpretResponse resp br st = (Ok bids, st) /\
    Forall2 renamed entries bids.
Proof.
  intros Hr Hb H. rewrite (interpretResponse_array _ _ _ _ Hr Hb).
  apply mapM_Forall2. eapply Forall_impl; [exact H|].
  intros e He. by apply bidResponse_renamed.
Qed.

Lemma interpretResponse_renames_witness :
  exists bids,
    interpretResponse MoreSamples.response1 VUndef Samples.st0 = (Ok bids, Samples.st0) /\
    Forall2 renamed [MoreSamples.entry1] bids.
Proof.
  apply (interpretResponse_renames MoreSamples.response1 VUndef Samples.st0
           [MoreSamples.entry1]).
  - reflexivity.
  - vm_compute. reflexivity.
  - repeat constructor.
Defined.

(** *** Win notification, further *)

Lemma only_pixels_ret {A} (a : A) : only_pixels (ret a).
Proof. intros st. split; [done|]. exists []. by rewrite app_nil_r. Qed.

Lemma only_pixels_lift {A} (o : outcome A) : only_pixels (lift o).
Proof. intros st. split; [done|]. exists []. by rewrite app_nil_r. Qed.

Lemma only_pixels_get_prop v k : only_pixels (get_prop v k).
Proof.
  intros st. rewrite get_prop_state. split; [done|].
  exists []. by rewrite app_nil_r.
Qed.

Lemma only_pixels_trigger u : only_pixels (emit (TriggerPixel u)).
Proof. intros st. split; [done|]. exists [TriggerPixel u]. by repeat constructor. Qed.

Lemma only_pixels_bind {A B} (m : M A) (k : A -> M B) :
  only_pixels m -> (forall a, only_pixels (k a)) -> only_pixels (bind m k).
Proof.
  intros Hm Hk st. unfold bind. destruct (Hm st) as (C1 & r1 & L1 & F1).
  destruct (m st) as [[a|e|] st1]; simpl in *; [|by eauto|by eauto].
  destruct (Hk a st1) as (C2 & r2 & L2 & F2).
  split; [congruence|]. exists (r1 ++ r2).
  split; [by rewrite L2, L1, app_assoc|by apply Forall_app].
Qed.

Lemma only_pixels_for_loop body n : forall from,
  (forall i, only_pixels (body i)) -> only_pixels (for_loop n from body).
Proof.
  induction n as [|n IH]; intros from Hb; simpl; [apply only_pixels_ret|].
  apply only_pixels_bind; [apply Hb|]. intros _. by apply IH.
Qed.

Lemma only_pixels_fire_tracker trackers i : only_pixels (fire_tracker trackers i).
Proof.
  unfold fire_tracker.
  apply only_pixels_bind; [apply only_pixels_get_prop|]. intros type.
  apply only_pixels_bind; [apply only_pixels_lift|]. intros [|].
  - apply only_pixels_bind; [apply only_pixels_get_prop|]. intros url.
    apply only_pixels_trigger.
  - apply only_pixels_ret.
Qed.

Lemma ajax_calls_pixels rest :
  Forall (fun e => is_pixel e = true) rest -> ajax_calls rest = [].
Proof.
  induction 1 as [|e rest He _ IH]; [done|].
  unfold ajax_calls in *. simpl. by destruct e.
Qed.

(** X17: for every bid that is present, [onBidWon] sends exactly one win
    notification, before anything else; whatever the tracker list is and
    however the call ends, everything after it is a fired pixel, and the
    configuration is not changed. *)
Theorem onBidWon_one_notification (bid : value) (st : state) :
  truthy bid = true ->
  let st' := (onBidWon bid st).2 in
  cfg st' = cfg st /\
  (exists rest,
     log st' = log st ++ win_notice bid :: rest /\
     Forall (fun e => is_pixel e = true) rest) /\
  ajax_calls (log st') = ajax_calls (log st) ++ [win_notice bid].
Proof.
  intros Hb st'. pose proof (truthy_not_nullish _ Hb) as Hn.
  assert (exists R : M unit,
            only_pixels R /\
            onBidWon bid st =
              R {| cfg := cfg st; log := log st ++ [win_notice bid] |})
    as (R & Hrest & Hrun).
  { unfold onBidWon. rewrite Hb. cbn [negb].
    do 4 js_get Hn.
    unfold bind at 1, emit. cbv beta iota.
    eexists. split; [|reflexivity].
    apply only_pixels_bind; [apply only_pixels_get_prop|]. intros trackers.
    destruct (truthy trackers); [|apply only_pixels_ret].
    apply only_pixels_bind; [apply only_pixels_get_prop|]. intros len.
    apply only_pixels_bind; [apply only_pixels_lift|]. intros n.
    destruct (number_lt (Fin 0) n); [|apply only_pixels_ret].
    destruct n; [|apply only_pixels_ret].
    apply only_pixels_for_loop. apply only_pixels_fire_tracker. }
  subst st'. rewrite Hrun.
  destruct (Hrest {| cfg := cfg st; log := log st ++ [win_notice bid] |})
    as (C & rest & L & F).
  rewrite C, L. cbn [cfg log].
  assert (forall l : list event, (log st ++ [win_notice bid]) ++ l
                                 = log st ++ win_notice bid :: l) as E.
  { intros l. by rewrite <- app_assoc. }
  rewrite E.
  split; [done|]. split; [by exists rest|].
  unfold ajax_calls. rewrite !List.filter_app.
  change (List.filter _ (win_notice bid :: rest))
    with (win_notice bid :: ajax_calls rest).
  by rewrite (ajax_calls_pixels rest F).
Qed.

Lemma onBidWon_one_notification_witness :
  ajax_calls (log (onBidWon MoreSamples.won_bad Samples.st0).2)
  = ajax_calls (log Samples.st0) ++ [win_notice MoreSamples.won_bad].
Proof.
  apply (onBidWon_one_notification MoreSamples.won_bad Samples.st0).
  reflexivity.
Defined.

Lemma for_loop_bad_tracker bad suf pre : forall pre0 st,
  Forall tracker_ok pre ->
  nullish bad = true ->
  exists e,
    for_loop (length (pre ++ bad :: suf)) (length pre0)
      (fire_tracker (VArr (pre0 ++ pre ++ bad :: suf))) st =
    (Throw e, {| cfg := cfg st;
                 log := log st ++ map (fun t => TriggerPixel (member t "url"))
                                      (List.filter (has_type_code 0) pre) |}).
Proof.
  induction pre as [|t pre IH]; intros pre0 st H Hbad; simpl.
  - unfold fire_tracker, element. rewrite list_lookup_middle by done. simpl.
    unfold bind, get_prop. rewrite Hbad. eexists.
    destruct st. simpl. by rewrite app_nil_r.
  - inversion H as [|? ? Ht Hs]; subst.
    rewrite (bind_ok _ _ _ _ _ (fire_tracker_ok pre0 t (pre ++ bad :: suf) st Ht)).
    destruct (IH (pre0 ++ [t]) {| cfg := cfg st;
                log := log st ++ (if has_type_code 0 t
                                  then [TriggerPixel (member t "url")] else []) |}
                Hs Hbad) as [e He].
    replace (length (pre0 ++ [t])) with (S (length pre0)) in He
      by (rewrite length_app; simpl; lia).
    rewrite <- (app_assoc pre0 [t]) in He. simpl in He.
    rewrite He. exists e. simpl.
    destruct (has_type_code 0 t); simpl; by rewrite <- ?app_assoc.
Qed.

(** X18: a tracker list with an entry that is null or undefined makes
    [onBidWon] throw in the middle of the loop: the win notification has
    been sent and the pixels of the well-formed type-0 trackers before that
    entry have been fired; those after it never are. *)
Theorem onBidWon_malformed_tracker (bid : value) (st : state)
    (pre suf : list value) (bad : value) :
  member bid "trackers" = VArr (pre ++ bad :: suf) ->
  Forall tracker_ok pre ->
  nullish bad = true ->
  exists e,
    onBidWon bid st =
    (Throw e, {| cfg := cfg st;
                 log := log st ++ win_notice bid ::
                        map (fun t => TriggerPixel (member t "url"))
                            (List.filter (has_type_code 0) pre) |}).
Proof.
  intros Htr H Hbad.
  assert (truthy bid = true) as Hb by (by destruct bid).
  pose proof (truthy_not_nullish _ Hb) as Hn.
  unfold onBidWon. rewrite Hb. cbn [negb].
  do 4 js_get Hn.
  unfold bind at 1, emit. cbv beta iota.
  js_get Hn. rewrite Htr.
  change (truthy (VArr ?l)) with true. cbv iota.
  rewrite (bind_ok _ _ _ _ _ (get_prop_ok (VArr _) "length" _ eq_refl)).
  change (member (VArr ?l) "length") with (VNum (Z.of_nat (length l))).
  unfold bind at 1, lift, ToNumber, number_lt. cbv beta iota.
  replace (0 <? Z.of_nat (length (pre ++ bad :: suf))) with true
    by (symmetry; apply Z.ltb_lt; rewrite length_app; simpl; lia).
  rewrite Nat2Z.id.
  match goal with |- context [for_loop _ _ _ ?s] =>
    destruct (for_loop_bad_tracker bad suf pre [] s H Hbad) as [e He]
  end.
  exists e. etransitivity; [exact He|]. simpl. by rewrite <- app_assoc.
Qed.

Lemma onBidWon_malformed_tracker_witness :
  exists e,
    onBidWon MoreSamples.won_bad Samples.st0 =
    (Throw e, {| cfg := cfg Samples.st0;
                 log := [win_notice MoreSamples.won_bad;
                         TriggerPixel (VStr "https://t.example/0")] |}).
Proof.
  apply (onBidWon_malformed_tracker MoreSamples.won_bad Samples.st0
           [Samples.tracker0] [Samples.tracker0] VNull).
  - vm_compute. reflexivity.
  - repeat constructor.
  - reflexivity.
Defined.

Lemma char_at_lt s : forall i,
  (i < String.length s)%nat -> exists c, char_at s i = Some c.
Proof.
  induction s as [|a s IH]; intros i H; simpl in *; [lia|].
  destruct i as [|i]; [by eexists|]. apply IH. lia.
Qed.

Lemma for_loop_text s n : forall from st,
  (from + n <= String.length s)%nat ->
  for_loop n from (fire_tracker (VStr s)) st = (Ok tt, st).
Proof.
  induction n as [|n IH]; intros from st H; simpl; [done|].
  destruct (char_at_lt s from) as [c Hc]; [lia|].
  unfold fire_tracker at 1, element. rewrite Hc. simpl.
  unfold bind at 1 2 3, get_prop, lift. simpl.
  apply IH. lia.
Qed.

(** X19: a tracker list that is not a list but a text, a number or a
    boolean is passed over: [onBidWon] sends the win notification, fires no
    pixel and does not throw, although a non-empty text passes the length
    test and is looped over character by character. *)
Theorem onBidWon_scalar_trackers (bid : value) (st : state) :
  truthy bid = true ->
  match member bid "trackers" with
  | VStr _ | VNum _ | VBool _ => True
  | _ => False
  end ->
  onBidWon bid st =
  (Ok tt, {| cfg := cfg st; log := log st ++ [win_notice bid] |}).
Proof.
  intros Hb Htr.
  destruct (truthy (member bid "trackers")) eqn:Ht;
    [|by apply onBidWon_no_trackers].
  pose proof (truthy_not_nullish _ Hb) as Hn.
  unfold onBidWon. rewrite Hb. cbn [negb].
  do 4 js_get Hn.
  unfold bind at 1, emit. cbv beta iota.
  js_get Hn. rewrite Ht.
  destruct (member bid "trackers") as [| |b|n|s| |] eqn:E; try done.
  - js_get (eq_refl : nullish (VStr s) = false).
    change (member (VStr s) "length") with (VNum (Z.of_nat (String.length s))).
    unfold bind at 1, lift, ToNumber, number_lt. cbv beta iota.
    destruct (0 <? Z.of_nat (String.length s)); [|done].
    rewrite Nat2Z.id. apply for_loop_text. lia.
Qed.

Lemma onBidWon_scalar_trackers_witness :
  onBidWon MoreSamples.won_text Samples.st0 =
  (Ok tt, {| cfg := cfg Samples.st0;
             log := log Samples.st0 ++ [win_notice MoreSamples.won_text] |}).
Proof.
  apply (onBidWon_scalar_trackers MoreSamples.won_text Samples.st0).
  - reflexivity.
  - vm_compute. exact I.
Defined.

(** X20: for a server entry whose userId is a text and whose trackers are
    a list of objects with numeric type codes, the bid interpreted from it,
    when it wins, reports what the server sent: the win notification carries
    the entry's bidid, impid and cpm and the bearer "Bearer " followed by
    the entry's userId, and the pixels fired are those of the entry's
    type-0 trackers, in order. *)
Theorem interpreted_bid_wins (resp br : value) (st st2 : state)
    (entries : list value) (i : nat) (e : value) (u : string) (ts : list value) :
  nullish resp = false ->
  member resp "body" = VArr entries ->
  Forall (fun e => nullish e = false) entries ->
  entries !! i = Some e ->
  member e "userId" = VStr u ->
  member e "trackers" = VArr ts ->
  Forall tracker_ok ts ->
  exists bids b,
    interpretResponse resp br st = (Ok bids, st) /\
    bids !! i = Some b /\
    onBidWon b st2 =
    (Ok tt,
     {| cfg := cfg st2;
        log := log st2 ++
          Ajax "https://srv.freedomadnetwork.com/pb/imp"
               (JSON_stringify (VObj (list_to_map
                  [ ("id", member e "bidid"); ("impid", member e "impid");
                    ("t", member e "cpm") ])))
               "POST"
               (<["Authorization" := "Bearer " +:+ u]>
                  {[ "Accept-Language" := "en;q=10" ]}) ::
          map (fun t => TriggerPixel (member t "url"))
              (List.filter (has_type_code 0) ts) |}).
Proof.
  intros Hr Hb H Hi Hu Htr Hts.
  rewrite (interpretResponse_array _ _ _ _ Hr Hb).
  destruct (mapM_Forall2 bidResponse renamed entries st) as (bids & Hbids & HR).
  { eapply Forall_impl; [exact H|]. intros x Hx. by apply bidResponse_renamed. }
  destruct (Forall2_lookup_l _ _ _ _ _ HR Hi) as (b & Hbi & Hren).
  exists bids, b. split; [done|]. split; [done|].
  destruct Hren as (_ & Hbidid & Himpid & Huser & Hcpm & _ & _ & _ & _ & _ & _
                    & _ & Htrackers & _).
  rewrite (onBidWon_trackers b st2 ts) by congruence.
  unfold win_notice. rewrite Hbidid, Himpid, Huser, Hcpm, Hu.
  cbn [ToString]. done.
Qed.

Lemma interpreted_bid_wins_witness :
  exists bids b,
    interpretResponse MoreSamples.response1 VUndef Samples.st0 = (Ok bids, Samples.st0) /\
    bids !! 0%nat = Some b /\
    onBidWon b Samples.st0 =
    (Ok tt,
     {| cfg := cfg Samples.st0;
        log := log Samples.st0 ++
          Ajax "https://srv.freedomadnetwork.com/pb/imp"
               (JSON_stringify (VObj (list_to_map
                  [ ("id", member MoreSamples.entry1 "bidid");
                    ("impid", member MoreSamples.entry1 "impid");
                    ("t", member MoreSamples.entry1 "cpm") ])))
               "POST"
               (<["Authorization" := "Bearer " +:+ "u-1"]>
                  {[ "Accept-Language" := "en;q=10" ]}) ::
          map (fun t => TriggerPixel (member t "url"))
              (List.filter (has_type_code 0)
                 [Samples.tracker0; Samples.tracker1]) |}).
Proof.
  apply (interpreted_bid_wins MoreSamples.response1 VUndef Samples.st0 Samples.st0
           [MoreSamples.entry1] 0 MoreSamples.entry1 "u-1"
           [Samples.tracker0; Samples.tracker1]).
  - reflexivity.
  - vm_compute. reflexivity.
  - repeat constructor.
  - reflexivity.
  - vm_compute. reflexivity.
  - vm_compute. reflexivity.
  - repeat constructor.
Defined.

(** *** Unvalidated bids and complete overrides *)

(** X21: [buildBidRequest] does not check the placement id. For a bid
    whose params carry none, a request is built all the same and the
    placements of its body are the one-element list of null. *)
Theorem buildBidRequest_without_placement (env : Env) (bid br : value) (st : state) :
  derefs bid br ->
  member (member bid "params") "placementId" = VUndef ->
  exists req st' body,
    buildBidRequest env bid br st = (Ok req, st') /\
    data req = Some body /\
    member (JSON_parse body) "placements" = VArr [VNull].
Proof.
  intros H Hpid. destruct (buildBidRequest_run env bid br st H) as (d & _ & Hrun).
  eexists _, _, _. split; [exact Hrun|]. split; [reflexivity|].
  rewrite member_reparsed_obj, Hpid. reflexivity.
Qed.

Lemma buildBidRequest_without_placement_witness :
  exists req st' body,
    buildBidRequest Samples.env0 (VObj {[ "params" := VObj ∅ ]})
      Samples.bidderRequest1 Samples.st0 = (Ok req, st') /\
    data req = Some body /\
    member (JSON_parse body) "placements" = VArr [VNull].
Proof.
  apply (buildBidRequest_without_placement Samples.env0
           (VObj {[ "params" := VObj ∅ ]}) Samples.bidderRequest1 Samples.st0).
  - repeat split.
  - reflexivity.
Defined.

(** X22: when the configured device override is complete, with truthy w,
    h, ua and language and a numeric dnt, building requests changes
    nothing at all: the state after [buildRequests] is the state before,
    whatever the bids and however the call ends. *)
Theorem buildRequests_complete_override (env : Env) (bids br : value) (st : state)
    (o : gmap string value) :
  cfg_device (cfg st) = Some o ->
  (forall k, k ∈ device_fields -> exists v, o !! k = Some v /\ kept k v = true) ->
  (buildRequests env bids br st).2 = st.
Proof.
  intros Hdev Hall.
  destruct (preserves_buildRequests env bids br st) as (L & D & C & V).
  rewrite Hdev in V. destruct V as (o' & Ho' & F).
  assert (o' = o) as ->.
  { apply map_eq. intros k. destruct (F k) as [Hout Hin].
    destruct (decide (k ∈ device_fields)) as [Hk|Hk]; [|by apply Hout].
    destruct (Hall k Hk) as (v & Hv & Hkept). rewrite Hv. by apply Hin. }
  destruct (buildRequests env bids br st).2 as [[d' c' v'] l'].
  destruct st as [[d c v] l]. simpl in *. congruence.
Qed.

Lemma buildRequests_complete_override_witness :
  (buildRequests Samples.env0 (VArr [Samples.bid0]) Samples.bidderRequest0
     {| cfg := {| cfg_debug := VUndef; cfg_coppa := VUndef;
                  cfg_device := Some (list_to_map
                    [ ("w", VNum 300); ("h", VNum 250); ("ua", VStr "agent");
                      ("language", VStr "fr"); ("dnt", VNum 0) ]) |};
        log := [] |}).2
  = {| cfg := {| cfg_debug := VUndef; cfg_coppa := VUndef;
                 cfg_device := Some (list_to_map
                   [ ("w", VNum 300); ("h", VNum 250); ("ua", VStr "agent");
                     ("language", VStr "fr"); ("dnt", VNum 0) ]) |};
       log := [] |}.
Proof.
  apply (buildRequests_complete_override Samples.env0 (VArr [Samples.bid0])
           Samples.bidderRequest0 _
           (list_to_map
              [ ("w", VNum 300); ("h", VNum 250); ("ua", VStr "agent");
                ("language", VStr "fr"); ("dnt", VNum 0) ])).
  - reflexivity.
  - intros k Hk. unfold device_fields in Hk.
    repeat (apply elem_of_cons in Hk as [->|Hk]; [by eexists|]).
    by apply elem_of_nil in Hk.
Defined.

(** *** The type test of the trackers *)


(** What [==] makes of some values compared with 0. *)
Example loose_eq_zero_examples :
  map loose_eq_zero
    [ VNum 0; VBool false; VStr ""; VStr "0"; VStr " 0.0 "; VStr "0x0";
      VStr "-0e5"; VArr []; VArr [VNum 0]; VArr [VNull];
      VNum 1; VBool true; VNull; VUndef; VStr "a"; VStr "0 0"; VStr "1e-5";
      VObj ∅; VArr [VNum 0; VNum 0]; VArr [VBool false] ]
  = [ Ok true; Ok true; Ok true; Ok true; Ok true; Ok true;
      Ok true; Ok true; Ok true; Ok true;
      Ok false; Ok false; Ok false; Ok false; Ok false; Ok false; Ok false;
      Ok false; Ok false; Ok false ].
Proof. vm_compute. reflexivity. Qed.




